(** * CTN news-intelligence service: bias pipeline, article search, search route

    A shallow embedding of [services/aiService.js] (class [CtnAiService]) and
    of the [GET /search] handler of [routes/news.js], with the properties the
    specification states about them.

    Modelling conventions.
    - JavaScript values are the inductive type [JS.val]; numbers are [JS.num]:
      an exact rational, the two infinities, or NaN.  Arithmetic on finite
      numbers is exact (IEEE rounding is not modelled).
    - Built-ins of the runtime that the repository only calls ([JSON.parse],
      string-to-number conversion, [parseInt], [toLowerCase], ...) are the
      fields of the class [Host]; every theorem holds for every
      implementation of them.  The conversions of a value to a number and to
      a string are total functions: they raise no TypeError, as is the case
      for the values [JSON.parse] returns unless an object carries a field
      named [toString] of its own.
    - The outside world (LLM provider, search provider, [Math.random]) is an
      oracle [Env] that answers the n-th call; the mutable part (clock, cache,
      call counters, call trace) is [State].  Async functions are functions
      in the monad [M] of state and exceptions.
    - Strings are byte strings: the UTF-8 encoding of the JavaScript string.
      Operations that depend on the characters (white space, code units,
      code points) read the encoding; [toLowerCase], which needs the case
      tables of Unicode, is a built-in of [Host].
    - Statements about what the cache holds are made for the states the
      service can reach from an empty cache ([reachable]; [reachable_in]
      when the replies of the model matter). *)

From Stdlib Require Import QArith Qround Qminmax Qabs Lqa ZArith Lia String Ascii List.
From stdpp Require Import gmap strings list pretty.

Set Warnings "-register-all".
Open Scope Z_scope.

(** ** JavaScript values *)

Module JS.

Inductive num : Type :=
| Fin (q : Q)
| PosInf
| NegInf
| NaN.

Definition of_Z (z : Z) : num := Fin (inject_Z z).

Definition Qltb (x y : Q) : bool := negb (Qle_bool y x).

(** [a < b]; every comparison with NaN is false. *)
Definition lt (a b : num) : bool :=
  match a, b with
  | NaN, _ | _, NaN => false
  | Fin x, Fin y => Qltb x y
  | NegInf, NegInf => false
  | NegInf, _ => true
  | _, NegInf => false
  | PosInf, _ => false
  | Fin _, PosInf => true
  end.

(** [a > b] *)
Definition gt (a b : num) : bool := lt b a.

Definition is_nan (a : num) : bool :=
  match a with NaN => true | _ => false end.

(** [Math.min(a, b)] and [Math.max(a, b)]: NaN if either argument is. *)
Definition Math_min (a b : num) : num :=
  if is_nan a || is_nan b then NaN else if lt b a then b else a.

Definition Math_max (a b : num) : num :=
  if is_nan a || is_nan b then NaN else if lt a b then b else a.

Definition Math_ceil (a : num) : num :=
  match a with Fin q => of_Z (Qceiling q) | _ => a end.

Definition div (a : num) (d : Q) : num :=
  match a with Fin q => Fin (q / d) | _ => a end.

Inductive val : Type :=
| Undefined
| Null
| Bool (b : bool)
| Num (n : num)
| Str (s : string)
| Arr (items : list val)
| Obj (fields : list (string * val)).

(** ToBoolean *)
Definition truthy (v : val) : bool :=
  match v with
  | Undefined | Null => false
  | Bool b => b
  | Num (Fin q) => negb (Qeq_bool q 0)
  | Num NaN => false
  | Num _ => true
  | Str s => negb (String.eqb s "")
  | Arr _ | Obj _ => true
  end.

(** [a || b] *)
Definition or (a b : val) : val := if truthy a then a else b.

Fixpoint assoc (k : string) (fields : list (string * val)) : val :=
  match fields with
  | [] => Undefined
  | (k', v) :: rest => if String.eqb k k' then v else assoc k rest
  end.

(** Property read [o.k] for the data properties the service reads (none of
    them is a built-in property of strings or arrays): [None] stands for
    the TypeError raised on [undefined] and [null]. *)
Definition get (o : val) (k : string) : option val :=
  match o with
  | Undefined | Null => None
  | Obj fields => Some (assoc k fields)
  | _ => Some Undefined
  end.

(** A continuation byte of UTF-8: [10xxxxxx]. *)
Definition is_continuation (c : ascii) : bool :=
  let n := N_of_ascii c in ((128 <=? n) && (n <? 192))%N.

(** The code points of a string, each with all its bytes. *)
Fixpoint code_points (s : string) : list string :=
  match s with
  | EmptyString => []
  | String c rest =>
      let starts_inside :=
        match rest with
        | String d _ => is_continuation d
        | EmptyString => false
        end in
      match code_points rest with
      | g :: gs =>
          if starts_inside then String c g :: gs
          else String c EmptyString :: g :: gs
      | [] => [String c EmptyString]
      end
  end.

(** Spread [...v] of a truthy value into an array literal: arrays and
    strings are iterable (a string by code points), other values raise a
    TypeError ([None]). *)
Definition spread (v : val) : option (list val) :=
  match v with
  | Arr items => Some items
  | Str s => Some (map Str (code_points s))
  | _ => None
  end.

End JS.

(** ** Built-ins of the runtime *)

Class Host : Type := {
  (** [JSON.parse]: [None] when it raises a SyntaxError. *)
  JSON_parse : string -> option JS.val;
  (** StringToNumber of ECMAScript, used by [ToNumber] on strings. *)
  StringToNumber : string -> JS.num;
  (** ToString, as applied by template literals. *)
  ToString : JS.val -> string;
  (** [parseInt] on a string. *)
  parseInt : string -> JS.num;
  (** [new URL(u).hostname]: [None] when the URL constructor throws. *)
  URL_hostname : string -> option string;
  (** [new Date(ms).toISOString()] *)
  toISOString : Z -> string;
  (** [s.toLowerCase()]: every cased character of Unicode is lowered, not
      only the ASCII letters (U+212A KELVIN SIGN becomes "k"). *)
  toLowerCase : string -> string
}.

Section Coercions.
Context {host : Host}.

(** ToNumber.  Arrays and plain objects go through their string form. *)
Definition ToNumber (v : JS.val) : JS.num :=
  match v with
  | JS.Undefined => JS.NaN
  | JS.Null => JS.of_Z 0
  | JS.Bool b => JS.of_Z (if b then 1 else 0)
  | JS.Num n => n
  | JS.Str s => StringToNumber s
  | JS.Arr _ | JS.Obj _ => StringToNumber (ToString v)
  end.

(** [Math.max(lo, Math.min(hi, v))] as the service writes its clamps. *)
Definition clamp (lo hi : Z) (v : JS.val) : JS.num :=
  JS.Math_max (JS.of_Z lo) (JS.Math_min (JS.of_Z hi) (ToNumber v)).

End Coercions.

(** ** String operations used by the service *)

Module Text.

Fixpoint starts_with (p s : string) : bool :=
  match p, s with
  | EmptyString, _ => true
  | String a p', String b s' => Ascii.eqb a b && starts_with p' s'
  | String _ _, EmptyString => false
  end.

(** [s.includes(p)] *)
Fixpoint includes (s p : string) : bool :=
  starts_with p s ||
  match s with
  | EmptyString => false
  | String _ rest => includes rest p
  end.

(** Number of matches of the global regular expression made of the literal
    [kw]: occurrences are searched left to right and do not overlap.  [skip]
    counts the characters of the current match still to be passed. *)
Fixpoint count_from (kw : string) (skip : nat) (s : string) : nat :=
  match s with
  | EmptyString => O
  | String _ rest =>
      match skip with
      | S k => count_from kw k rest
      | O => if starts_with kw s
             then S (count_from kw (Nat.pred (String.length kw)) rest)
             else count_from kw O rest
      end
  end.

(** [(s.match(new RegExp(kw, 'g')) || []).length] for a keyword without
    regular-expression metacharacters. *)
Definition matchCount (s kw : string) : nat := count_from kw O s.

Fixpoint take (n : nat) (s : string) : string :=
  match n, s with
  | S k, String c rest => String c (take k rest)
  | _, _ => EmptyString
  end.

Fixpoint drop (n : nat) (s : string) : string :=
  match n, s with
  | S k, String _ rest => drop k rest
  | _, _ => s
  end.

(** White space of ECMAScript, which [\s] matches and [trim] removes: the
    characters U+0009 to U+000D and U+0020, and beyond ASCII U+00A0, U+1680,
    U+2000 to U+200A, U+2028, U+2029, U+202F, U+205F, U+3000 and U+FEFF.
    [is_space] decides the ones of one byte. *)
Definition is_space (c : ascii) : bool :=
  let n := N_of_ascii c in
  ((n =? 32) || ((9 <=? n) && (n <=? 13)))%N.

(** The UTF-8 encodings of the white space beyond ASCII: two bytes for
    U+00A0, three bytes for the others. *)
Definition is_space2 (a b : ascii) : bool :=
  ((N_of_ascii a =? 194) && (N_of_ascii b =? 160))%N.

Definition is_space3 (a b c : ascii) : bool :=
  let x := N_of_ascii a in
  let y := N_of_ascii b in
  let z := N_of_ascii c in
  (((x =? 225) && (y =? 154) && (z =? 128))
   || ((x =? 226) && (y =? 128)
       && (((128 <=? z) && (z <=? 138)) || (z =? 168) || (z =? 169) || (z =? 175)))
   || ((x =? 226) && (y =? 129) && (z =? 159))
   || ((x =? 227) && (y =? 128) && (z =? 128))
   || ((x =? 239) && (y =? 187) && (z =? 191)))%N.

(** The rest of [s] after one leading white-space character. *)
Definition space_prefix (s : string) : option string :=
  match s with
  | String a r1 =>
      if is_space a then Some r1
      else match r1 with
           | String b r2 =>
               if is_space2 a b then Some r2
               else match r2 with
                    | String c r3 => if is_space3 a b c then Some r3 else None
                    | EmptyString => None
                    end
           | EmptyString => None
           end
  | EmptyString => None
  end.

(** The same on a reversed string: the bytes of the last character of the
    original come first, last byte first. *)
Definition space_suffix (s : string) : option string :=
  match s with
  | String a r1 =>
      if is_space a then Some r1
      else match r1 with
           | String b r2 =>
               if is_space2 b a then Some r2
               else match r2 with
                    | String c r3 => if is_space3 c b a then Some r3 else None
                    | EmptyString => None
                    end
           | EmptyString => None
           end
  | EmptyString => None
  end.

(** Repeated removal with [step]; [fuel] bounds the number of characters. *)
Fixpoint drop_while (step : string -> option string) (fuel : nat) (s : string)
  : string :=
  match fuel with
  | O => s
  | S fuel' =>
      match step s with
      | Some rest => drop_while step fuel' rest
      | None => s
      end
  end.

(** [s] without its leading white space. *)
Definition drop_spaces (s : string) : string :=
  drop_while space_prefix (String.length s) s.

(** A reversed string without the white space that ends the original. *)
Definition drop_spaces_rev (s : string) : string :=
  drop_while space_suffix (String.length s) s.

(** [s.replace(/pat\s*/g, '')] for a literal, non-empty [pat]. *)
Fixpoint remove_with_spaces (fuel : nat) (pat s : string) : string :=
  match fuel with
  | O => s
  | S fuel' =>
      match s with
      | EmptyString => EmptyString
      | String c rest =>
          if starts_with pat s
          then remove_with_spaces fuel' pat (drop_spaces (drop (String.length pat) s))
          else String c (remove_with_spaces fuel' pat rest)
      end
  end.

Definition rev_string (s : string) : string :=
  string_of_list_ascii (rev (list_ascii_of_string s)).

(** [s.trim()] *)
Definition trim (s : string) : string :=
  rev_string (drop_spaces_rev (rev_string (drop_spaces s))).

(** [s.replace(pat, '')]: the first occurrence only. *)
Fixpoint remove_first (pat s : string) : string :=
  if starts_with pat s then drop (String.length pat) s
  else match s with
       | EmptyString => EmptyString
       | String c rest => String c (remove_first pat rest)
       end.

(** [s.split('.')[0]] *)
Fixpoint before_dot (s : string) : string :=
  match s with
  | EmptyString => EmptyString
  | String c rest => if Ascii.eqb c "."%char then EmptyString else String c (before_dot rest)
  end.

Definition is_lower_alnum (c : ascii) : bool :=
  let n := N_of_ascii c in
  (((97 <=? n) && (n <=? 122)) || ((48 <=? n) && (n <=? 57)))%N.

(** [s.replace(/[^a-z0-9]/g, '_')]: the expression has no [u] flag, so each
    UTF-16 code unit that is not a lower-case letter or a digit becomes one
    underscore.  A character of two or three bytes is one code unit, a
    character of four bytes (lead byte from 240) is two. *)
Fixpoint underscore_non_alnum (s : string) : string :=
  match s with
  | EmptyString => EmptyString
  | String c rest =>
      if is_lower_alnum c then String c (underscore_non_alnum rest)
      else if JS.is_continuation c then underscore_non_alnum rest
      else if (240 <=? N_of_ascii c)%N
           then String "_"%char (String "_"%char (underscore_non_alnum rest))
           else String "_"%char (underscore_non_alnum rest)
  end.

Definition base64_alphabet : list ascii :=
  list_ascii_of_string
    "ABCDEFGHIJKLMNOPQRSTUVWXYZabcdefghijklmnopqrstuvwxyz0123456789+/".

Definition base64_digit (n : N) : ascii :=
  nth (N.to_nat n) base64_alphabet "="%char.

Fixpoint base64_groups (bytes : list N) : list ascii :=
  match bytes with
  | [] => []
  | [a] =>
      [base64_digit (a / 4); base64_digit ((a mod 4) * 16); "="%char; "="%char]
  | [a; b] =>
      [base64_digit (a / 4); base64_digit ((a mod 4) * 16 + b / 16);
       base64_digit ((b mod 16) * 4); "="%char]
  | a :: b :: c :: rest =>
      [base64_digit (a / 4); base64_digit ((a mod 4) * 16 + b / 16);
       base64_digit ((b mod 16) * 4 + c / 64); base64_digit (c mod 64)]
      ++ base64_groups rest
  end%N.

(** [Buffer.from(s).toString('base64')] on the bytes of [s]. *)
Definition base64 (s : string) : string :=
  string_of_list_ascii (base64_groups (map N_of_ascii (list_ascii_of_string s))).

End Text.

(** ** Data model *)

Record ExaResult : Type := {
  r_url : string;
  r_title : JS.val;
  r_text : JS.val;
  r_summary : JS.val;
  r_publishedDate : JS.val;
  r_author : JS.val;
  r_image : JS.val;
  r_imageUrl : JS.val;
  r_featuredImage : JS.val;
  r_thumbnail : JS.val
}.

Record Article : Type := {
  a_title : JS.val;
  a_content : JS.val;
  a_source : string;
  a_url : string;
  a_publishedAt : JS.val;
  a_author : JS.val;
  a_imageUrl : JS.val
}.

(** The object [{ articles: [...] }] returned by the search. *)
Record NewsData : Type := { articles : list Article }.

(** [sourceReliability] is [JS.Undefined] when the object has no such key. *)
Record BiasAnalysis : Type := {
  biasScore : JS.num;
  biasLabel : JS.val;
  confidence : JS.num;
  reasoning : JS.val;
  keyIndicators : JS.val;
  sourceReliability : JS.val;
  analysisMethod : string
}.

(** ** The outside world and the mutable state *)

(** Outcome of one [anthropic.messages.create]: [None] is a rejected promise,
    [Some blocks] a response whose [content] holds these text blocks. *)
Record LlmReply : Type := {
  llm_latency : Z;
  llm_content : option (list string)
}.

(** Outcome of one [exa.searchAndContents]: [None] is a rejected promise;
    [Some None] a response that is falsy or has no [results]. *)
Record ExaReply : Type := {
  exa_latency : Z;
  exa_response : option (option (list ExaResult))
}.

Record Env : Type := {
  llm : nat -> LlmReply;
  exa : nat -> ExaReply;
  random : nat -> Q
}.

Inductive CallSite : Type :=
| PrimaryBias
| SourceReputation
| ArticleInContext.

Inductive DomainGroup : Type :=
| LiberalDomains
| ConservativeDomains
| CenterDomains
| MixedDomains (sources : string).

Inductive Event : Type :=
| LlmCall (site : CallSite)
| ExaSearch (group : DomainGroup) (numResults : JS.num)
| Enter_ctnGetSourceBasedBiasAnalysis
| Enter_ctnAnalyzeContentBasedBias.

(** The node-cache instance [ctnCache].  The keys of the three uses start
    with different prefixes ("ctn_news_", "ctn_bias_", "ctn_source_bias_"),
    so the one store is kept as three stores, one per prefix and value type.
    An entry is its expiry instant (ms) and its value. *)
Record State : Type := {
  clock : Z;
  news_cache : gmap string (Z * NewsData);
  bias_cache : gmap string (Z * BiasAnalysis);
  source_cache : gmap string (Z * JS.val);
  llm_calls : nat;
  exa_calls : nat;
  random_calls : nat;
  trace : list Event
}.

Inductive exn : Type :=
| TypeError
| ReferenceError
| SyntaxError
| ProviderError
| TimeoutError.

Inductive outcome (A : Type) : Type :=
| Ok (a : A)
| Throw (e : exn).
Arguments Ok {A} a.
Arguments Throw {A} e.

(** Computations that read the oracle, update the state and may throw.  The
    state reached when an exception is thrown is kept: effects are not
    rolled back. *)
Definition M (A : Type) : Type := Env -> State -> outcome A * State.

Definition ret {A} (a : A) : M A := fun _ s => (Ok a, s).

Definition throw {A} (e : exn) : M A := fun _ s => (Throw e, s).

Definition bind {A B} (m : M A) (k : A -> M B) : M B :=
  fun e s =>
    match m e s with
    | (Ok a, s') => k a e s'
    | (Throw x, s') => (Throw x, s')
    end.

(** [try { m } catch (error) { h error }] *)
Definition try_catch {A} (m : M A) (h : exn -> M A) : M A :=
  fun e s =>
    match m e s with
    | (Ok a, s') => (Ok a, s')
    | (Throw x, s') => h x e s'
    end.

Notation "x <~ c1 ;; c2" := (bind c1 (fun x => c2))
  (at level 100, c1 at next level, right associativity).

Definition of_option {A} (err : exn) (o : option A) : M A :=
  match o with
  | Some a => ret a
  | None => throw err
  end.

Definition set_clock (t : Z) (s : State) : State :=
  {| clock := t; news_cache := news_cache s; bias_cache := bias_cache s;
     source_cache := source_cache s; llm_calls := llm_calls s;
     exa_calls := exa_calls s; random_calls := random_calls s; trace := trace s |}.

Definition set_news_cache (c : gmap string (Z * NewsData)) (s : State) : State :=
  {| clock := clock s; news_cache := c; bias_cache := bias_cache s;
     source_cache := source_cache s; llm_calls := llm_calls s;
     exa_calls := exa_calls s; random_calls := random_calls s; trace := trace s |}.

Definition set_bias_cache (c : gmap string (Z * BiasAnalysis)) (s : State) : State :=
  {| clock := clock s; news_cache := news_cache s; bias_cache := c;
     source_cache := source_cache s; llm_calls := llm_calls s;
     exa_calls := exa_calls s; random_calls := random_calls s; trace := trace s |}.

Definition set_source_cache (c : gmap string (Z * JS.val)) (s : State) : State :=
  {| clock := clock s; news_cache := news_cache s; bias_cache := bias_cache s;
     source_cache := c; llm_calls := llm_calls s;
     exa_calls := exa_calls s; random_calls := random_calls s; trace := trace s |}.

Definition log_event (ev : Event) : M unit :=
  fun _ s =>
    (Ok tt,
     {| clock := clock s; news_cache := news_cache s; bias_cache := bias_cache s;
        source_cache := source_cache s; llm_calls := llm_calls s;
        exa_calls := exa_calls s; random_calls := random_calls s;
        trace := trace s ++ [ev] |}).

(** [Date.now()] *)
Definition Date_now : M Z := fun _ s => (Ok (clock s), s).

(** [Math.random()] *)
Definition Math_random : M Q :=
  fun e s =>
    (Ok (random e (random_calls s)),
     {| clock := clock s; news_cache := news_cache s; bias_cache := bias_cache s;
        source_cache := source_cache s; llm_calls := llm_calls s;
        exa_calls := exa_calls s; random_calls := S (random_calls s);
        trace := trace s |}).

(** *** node-cache *)

Definition stdTTL : Z := 1800.

(** [get]: an entry whose expiry instant [t] satisfies [t !== 0 && t < now]
    is deleted and reported as absent. *)
Definition nc_get {V} (now : Z) (k : string) (m : gmap string (Z * V))
  : option V * gmap string (Z * V) :=
  match m !! k with
  | Some (t, v) =>
      if negb (t =? 0) && (t <? now) then (None, delete k m) else (Some v, m)
  | None => (None, m)
  end.

(** [set(k, v, ttl)] with [ttl] in seconds, not zero. *)
Definition nc_set {V} (now ttl : Z) (k : string) (v : V) (m : gmap string (Z * V))
  : gmap string (Z * V) :=
  <[k := (now + ttl * 1000, v)]> m.

Definition ctnCache_get_news (k : string) : M (option NewsData) :=
  fun _ s =>
    let '(r, c) := nc_get (clock s) k (news_cache s) in (Ok r, set_news_cache c s).

Definition ctnCache_set_news (k : string) (v : NewsData) : M unit :=
  fun _ s => (Ok tt, set_news_cache (nc_set (clock s) stdTTL k v (news_cache s)) s).

Definition ctnCache_get_bias (k : string) : M (option BiasAnalysis) :=
  fun _ s =>
    let '(r, c) := nc_get (clock s) k (bias_cache s) in (Ok r, set_bias_cache c s).

Definition ctnCache_set_bias (k : string) (v : BiasAnalysis) : M unit :=
  fun _ s => (Ok tt, set_bias_cache (nc_set (clock s) stdTTL k v (bias_cache s)) s).

Definition ctnCache_get_source (k : string) : M (option JS.val) :=
  fun _ s =>
    let '(r, c) := nc_get (clock s) k (source_cache s) in (Ok r, set_source_cache c s).

Definition ctnCache_set_source (k : string) (v : JS.val) (ttl : Z) : M unit :=
  fun _ s => (Ok tt, set_source_cache (nc_set (clock s) ttl k v (source_cache s)) s).

(** *** Providers *)

(** [await this.anthropic.messages.create(...)]: the call is recorded, the
    clock advances by the latency of the reply. *)
Definition anthropic_messages_create (site : CallSite) : M (list string) :=
  fun e s =>
    let r := llm e (llm_calls s) in
    let s' :=
      {| clock := clock s + llm_latency r; news_cache := news_cache s;
         bias_cache := bias_cache s; source_cache := source_cache s;
         llm_calls := S (llm_calls s); exa_calls := exa_calls s;
         random_calls := random_calls s; trace := trace s ++ [LlmCall site] |} in
    match llm_content r with
    | Some blocks => (Ok blocks, s')
    | None => (Throw ProviderError, s')
    end.

(** [response.content[0].text] *)
Definition first_text (blocks : list string) : M string :=
  match blocks with
  | t :: _ => ret t
  | [] => throw TypeError
  end.

(** [this.exa.searchAndContents(query, {...})] without [await]: the request
    is recorded and the pending reply returned. *)
Definition exa_searchAndContents (group : DomainGroup) (numResults : JS.num)
  : M ExaReply :=
  fun e s =>
    (Ok (exa e (exa_calls s)),
     {| clock := clock s; news_cache := news_cache s; bias_cache := bias_cache s;
        source_cache := source_cache s; llm_calls := llm_calls s;
        exa_calls := S (exa_calls s); random_calls := random_calls s;
        trace := trace s ++ [ExaSearch group numResults] |}).

Definition rejection_times (ps : list ExaReply) : list Z :=
  omap (fun p => match exa_response p with
                 | None => Some (exa_latency p)
                 | Some _ => None
                 end) ps.

Definition list_min (d : Z) (l : list Z) : Z := fold_right Z.min d l.
Definition list_max (d : Z) (l : list Z) : Z := fold_right Z.max d l.

(** [Promise.all(ps)]: rejected at the earliest rejection, otherwise
    fulfilled when the slowest reply is in. *)
Definition Promise_all (ps : list ExaReply) : Z * option (list (option (list ExaResult))) :=
  match rejection_times ps with
  | [] => (list_max 0 (map exa_latency ps), mapM exa_response ps)
  | t :: ts => (list_min t ts, None)
  end.

(** [await Promise.race([Promise.all(ps), timeoutPromise])] with a timer of
    [timeout] ms that rejects. *)
Definition race_with_timeout (timeout : Z) (ps : list ExaReply)
  : M (list (option (list ExaResult))) :=
  fun _ s =>
    let '(t, r) := Promise_all ps in
    if t <? timeout then
      match r with
      | Some responses => (Ok responses, set_clock (clock s + t) s)
      | None => (Throw ProviderError, set_clock (clock s + t) s)
      end
    else (Throw TimeoutError, set_clock (clock s + timeout) s).

(** ** The service: [CtnAiService] *)

Definition Qtrunc (q : Q) : Z :=
  if Qle_bool 0 q then Qfloor q else Qceiling q.

(** End index of [list.slice(0, limit)] for a list of [len] elements. *)
Definition slice_end (len : nat) (limit : JS.num) : nat :=
  match limit with
  | JS.NaN | JS.NegInf => O
  | JS.PosInf => len
  | JS.Fin q =>
      let k := Qtrunc q in
      if k <? 0 then Z.to_nat (Z.max (Z.of_nat len + k) 0)
      else Z.to_nat (Z.min k (Z.of_nat len))
  end.

Definition slice0 {A} (limit : JS.num) (l : list A) : list A :=
  firstn (slice_end (length l) limit) l.

(** The filter over [allResults] with the set [seenUrls]. *)
Fixpoint filter_unseen (seenUrls : gset string) (l : list ExaResult) : list ExaResult :=
  match l with
  | [] => []
  | result :: rest =>
      if decide (r_url result ∈ seenUrls) then filter_unseen seenUrls rest
      else result :: filter_unseen ({[r_url result]} ∪ seenUrls) rest
  end.

Definition uniqueResults (allResults : list ExaResult) : list ExaResult :=
  filter_unseen ∅ allResults.

Definition placeholder_image : string :=
  "https://images.unsplash.com/photo-1504711434969-e33886168f5c?w=800&h=600&fit=crop&crop=center".

(** [60 * 60 * 1000] *)
Definition hour_ms : Z := 60 * 60 * 1000.

(** Keyword and source lists of [ctnAnalyzeContentBasedBias]. *)
Definition liberalKeywords : list string :=
  ["progressive"; "liberal"; "democratic"; "democrats"; "left-wing"; "activist";
   "climate change"; "global warming"; "social justice"; "systemic racism";
   "white privilege"; "healthcare reform"; "medicare for all"; "gun control";
   "assault weapons"; "LGBTQ"; "transgender rights"; "immigration reform";
   "dreamers"; "refugees"; "asylum seekers"; "diversity"; "inclusion";
   "income inequality"; "wealth gap"; "minimum wage"; "living wage"; "union";
   "workers rights"; "environmental protection"; "renewable energy";
   "green new deal"; "civil rights"; "voting rights"; "vulnerable communities";
   "marginalized"; "oppressed"; "exploited"; "corporate greed"].

Definition conservativeKeywords : list string :=
  ["conservative"; "republican"; "republicans"; "right-wing"; "patriot";
   "constitutional"; "traditional values"; "family values"; "religious freedom";
   "christian values"; "tax cuts"; "deregulation"; "free market"; "capitalism";
   "small business"; "job creators"; "fiscal responsibility"; "balanced budget";
   "national debt"; "government spending"; "second amendment"; "gun rights";
   "border security"; "illegal immigration"; "law and order"; "crime";
   "public safety"; "police"; "military"; "national security"; "terrorism";
   "limited government"; "states rights"; "school choice"; "pro-life"; "unborn";
   "radical left"; "socialist"; "communist"; "woke"; "cancel culture";
   "mainstream media"].

Definition neutralKeywords : list string :=
  ["bipartisan"; "nonpartisan"; "balanced"; "objective"; "factual"; "data shows";
   "according to data"; "research shows"; "experts say"; "analysis reveals";
   "study finds"; "officials said"; "sources indicate"; "reported"; "confirmed";
   "statistics show"].

Definition liberalSources : list string :=
  ["huffington"; "huffpost"; "salon"; "vox"; "dailykos"; "motherjones";
   "thenation"; "commondreams"; "thinkprogress"; "mediamatters"; "rawstory";
   "alternet"; "truthout"; "democracynow"; "jacobin"; "slate"; "washingtonpost";
   "nytimes"; "cnn"; "msnbc"].

Definition conservativeSources : list string :=
  ["foxnews"; "fox"; "dailywire"; "breitbart"; "nationalreview"; "townhall";
   "dailycaller"; "redstate"; "theblaze"; "washingtonexaminer"; "nypost";
   "americanthinker"; "powerline"; "hotair"; "pjmedia"; "oann"; "newsmax"].

(** One [forEach] over a keyword list: title matches count twice. *)
Definition keywordScore (keywords : list string) (titleLower contentLower : string) : Z :=
  fold_left
    (fun score keyword =>
       let titleMatches := Z.of_nat (Text.matchCount titleLower keyword) in
       let contentMatches := Z.of_nat (Text.matchCount contentLower keyword) in
       score + (titleMatches * 2 + contentMatches))
    keywords 0.

(** [Math.round]: to the nearest integer, halves upwards. *)
Definition Math_round (x : Q) : Z := Qfloor (x + (1 # 2))%Q.

(** [biasScore], [biasLabel], [confidence] as the branches assign them. *)
Record Verdict : Type := {
  v_score : Q;
  v_label : string;
  v_confidence : Q
}.

Section Service.
Context {host : Host}.

(** Template-literal interpolation of a number. *)
Definition NumberToString (n : JS.num) : string := ToString (JS.Num n).

Definition strip_markdown (content : string) : string :=
  Text.trim
    (Text.remove_with_spaces (S (String.length content)) "```"
       (Text.remove_with_spaces (S (String.length content)) "```json" content)).

(** [None] is the SyntaxError rethrown when both attempts fail. *)
Definition ctnParseJsonResponse (content : string) : option JS.val :=
  match JSON_parse content with
  | Some v => Some v
  | None => JSON_parse (strip_markdown content)
  end.

Definition ctnExtractSourceDomain (url : string) : string :=
  match URL_hostname url with
  | Some domain => Text.before_dot (Text.remove_first "www." domain)
  | None => "Unknown Source"
  end.

Definition toArticle (now : Z) (result : ExaResult) : Article :=
  let imageUrl :=
    JS.or (JS.or (JS.or (r_image result) (r_imageUrl result)) (r_featuredImage result))
          (r_thumbnail result) in
  let imageUrl := if JS.truthy imageUrl then imageUrl else JS.Str placeholder_image in
  {| a_title := JS.or (r_title result) (JS.Str "Untitled Article");
     a_content := JS.or (JS.or (r_text result) (r_summary result)) (JS.Str "No content available");
     a_source := ctnExtractSourceDomain (r_url result);
     a_url := r_url result;
     a_publishedAt := JS.or (r_publishedDate result) (JS.Str (toISOString now));
     a_author := JS.or (r_author result) JS.Null;
     a_imageUrl := imageUrl |}.

Definition fallbackArticles (now : Z) : NewsData :=
  {| articles := [
    {| a_title := JS.Str "Breaking: Major Tech Companies Announce AI Safety Initiative";
       a_content := JS.Str "Leading technology companies have announced a comprehensive AI safety initiative aimed at ensuring responsible development of artificial intelligence systems. The collaboration involves establishing shared safety standards, conducting joint research on AI alignment, and creating transparent reporting mechanisms for AI development milestones. Industry experts view this as a crucial step toward preventing potential risks associated with advanced AI systems while promoting innovation in the field.";
       a_source := "TechNews Daily";
       a_url := "https://example.com/ai-safety-initiative";
       a_publishedAt := JS.Str (toISOString (now - 2 * hour_ms));
       a_author := JS.Str "Sarah Mitchell";
       a_imageUrl := JS.Str "https://images.unsplash.com/photo-1677442136019-21780ecad995?w=800&h=600&fit=crop&crop=center" |};
    {| a_title := JS.Str "Climate Scientists Report Breakthrough in Carbon Capture Technology";
       a_content := JS.Str "Researchers have developed a revolutionary carbon capture system that can remove CO2 from the atmosphere at unprecedented efficiency rates. The new technology combines advanced materials science with AI-powered optimization to achieve 90% capture efficiency while significantly reducing energy costs. The breakthrough could play a crucial role in meeting global climate targets and represents a major advancement in the fight against climate change.";
       a_source := "Environmental Science Today";
       a_url := "https://example.com/carbon-capture-breakthrough";
       a_publishedAt := JS.Str (toISOString (now - 4 * hour_ms));
       a_author := JS.Str "Dr. Michael Chen";
       a_imageUrl := JS.Str "https://images.unsplash.com/photo-1569163139394-de4e5f43e4e3?w=800&h=600&fit=crop&crop=center" |};
    {| a_title := JS.Str "Global Markets React to New Economic Policy Announcements";
       a_content := JS.Str "International financial markets showed mixed reactions to recent economic policy announcements from major central banks. While some sectors experienced volatility, others demonstrated resilience as investors analyze the implications of changing monetary policies. Economic analysts suggest that market uncertainty reflects broader concerns about inflation, interest rates, and global economic stability in the coming quarters.";
       a_source := "Financial Review";
       a_url := "https://example.com/market-reaction-policy";
       a_publishedAt := JS.Str (toISOString (now - 6 * hour_ms));
       a_author := JS.Str "Jennifer Rodriguez";
       a_imageUrl := JS.Str "https://images.unsplash.com/photo-1611974789855-9c2a0a7236a3?w=800&h=600&fit=crop&crop=center" |};
    {| a_title := JS.Str "Medical Research: New Drug Shows Promise in Alzheimer's Treatment";
       a_content := JS.Str "Clinical trials for a new Alzheimer's treatment have shown promising results, with patients experiencing significant improvements in cognitive function and memory retention. The drug targets specific proteins associated with the disease and has demonstrated fewer side effects compared to existing treatments. Medical experts are cautiously optimistic about the potential for this treatment to provide new hope for millions of Alzheimer's patients worldwide.";
       a_source := "Medical Journal Weekly";
       a_url := "https://example.com/alzheimers-drug-trial";
       a_publishedAt := JS.Str (toISOString (now - 8 * hour_ms));
       a_author := JS.Str "Dr. Amanda Foster";
       a_imageUrl := JS.Str "https://images.unsplash.com/photo-1582719508461-905c673771fd?w=800&h=600&fit=crop&crop=center" |};
    {| a_title := JS.Str "Space Exploration: International Collaboration on Mars Mission Announced";
       a_content := JS.Str "Space agencies from multiple countries have announced an ambitious collaborative mission to Mars, aimed at establishing a sustainable human presence on the Red Planet. The mission involves advanced life support systems, habitat construction, and resource utilization technologies. Scientists believe this international cooperation represents a significant milestone in space exploration and could pave the way for future interplanetary settlements.";
       a_source := "Space Technology Review";
       a_url := "https://example.com/mars-mission-collaboration";
       a_publishedAt := JS.Str (toISOString (now - 10 * hour_ms));
       a_author := JS.Str "Dr. James Parker";
       a_imageUrl := JS.Str "https://images.unsplash.com/photo-1446776653964-20c1d3a81b06?w=800&h=600&fit=crop&crop=center" |}
  ] |}.

Definition news_cacheKey (query sources : string) (limit : JS.num) : string :=
  "ctn_news_" +:+ query +:+ "_" +:+ sources +:+ "_" +:+ NumberToString limit.

(** The [try] block of [ctnSearchNewsArticles]. *)
Definition ctnSearchNewsArticles_try (query sources : string) (limit : JS.num)
  : M NewsData :=
  let cacheKey := news_cacheKey query sources limit in
  cached <~ ctnCache_get_news cacheKey ;;
  match cached with
  | Some hit => ret hit
  | None =>
      let resultsPerCategory := JS.Math_ceil (JS.div limit 4) in
      p1 <~ exa_searchAndContents LiberalDomains
              (JS.Math_min resultsPerCategory (JS.of_Z 8)) ;;
      p2 <~ exa_searchAndContents ConservativeDomains
              (JS.Math_min resultsPerCategory (JS.of_Z 8)) ;;
      p3 <~ exa_searchAndContents CenterDomains
              (JS.Math_min resultsPerCategory (JS.of_Z 8)) ;;
      p4 <~ exa_searchAndContents (MixedDomains sources)
              (JS.Math_min limit (JS.of_Z 10)) ;;
      searchResults <~ race_with_timeout 10000 [p1; p2; p3; p4] ;;
      let allResults :=
        concat (map (fun searchResult => default [] searchResult) searchResults) in
      let unique := uniqueResults allResults in
      now <~ Date_now ;;
      let found := {| articles := map (toArticle now) (slice0 limit unique) |} in
      _ <~ ctnCache_set_news cacheKey found ;;
      ret found
  end.

(** Reading an identifier that is not in scope raises a ReferenceError. *)
Definition unbound_identifier (name : string) : M string := throw ReferenceError.

(** The [catch] block of [ctnSearchNewsArticles].  [cacheKey] is declared
    with [const] inside the [try] block and is not in scope here. *)
Definition ctnSearchNewsArticles_catch (error : exn) : M NewsData :=
  now <~ Date_now ;;
  let fallback := fallbackArticles now in
  cacheKey <~ unbound_identifier "cacheKey" ;;
  _ <~ ctnCache_set_news cacheKey fallback ;;
  ret fallback.

Definition ctnSearchNewsArticles (query sources : string) (limit : JS.num)
  : M NewsData :=
  try_catch (ctnSearchNewsArticles_try query sources limit)
            ctnSearchNewsArticles_catch.

(** *** Tier 3: keyword heuristic *)

Definition ctnAnalyzeContentBasedBias (title content source : string)
  : M BiasAnalysis :=
  _ <~ log_event Enter_ctnAnalyzeContentBasedBias ;;
  let titleLower := toLowerCase title in
  let contentLower := toLowerCase content in
  let liberalCount := keywordScore liberalKeywords titleLower contentLower in
  let conservativeCount := keywordScore conservativeKeywords titleLower contentLower in
  let neutralScore := keywordScore neutralKeywords titleLower contentLower in
  let sourceLower := toLowerCase source in
  let '(liberalScore, conservativeScore, sourceModifier) :=
    if existsb (fun src => Text.includes sourceLower src) liberalSources
    then (liberalCount + 10, conservativeCount, -25)
    else if existsb (fun src => Text.includes sourceLower src) conservativeSources
    then (liberalCount, conservativeCount + 10, 25)
    else (liberalCount, conservativeCount, 0) in
  let totalPoliticalScore := liberalScore + conservativeScore in
  let initial (c : Q) : Verdict :=
    {| v_score := inject_Z (50 + sourceModifier);
       v_label := "Neutral/Centrist"; v_confidence := c |} in
  verdict <~
    (if 0 <? totalPoliticalScore then
       if (conservativeScore <? liberalScore) || (sourceModifier <? 0) then
         let dominanceRatio :=
           Qmax 0.3 (inject_Z (liberalScore + Z.abs sourceModifier)
                     / inject_Z (Z.max 1 (totalPoliticalScore + 10))) in
         let score := Qmax 15 (50 - dominanceRatio * 35) in
         ret {| v_score := score;
                v_label := if Qle_bool score 25 then "Highly Liberal" else "Liberal";
                v_confidence := Qmin 0.85 (0.6 + dominanceRatio * 0.25) |}
       else if (liberalScore <? conservativeScore) || (0 <? sourceModifier) then
         let dominanceRatio :=
           Qmax 0.3 (inject_Z (conservativeScore + Z.abs sourceModifier)
                     / inject_Z (Z.max 1 (totalPoliticalScore + 10))) in
         let score := Qmin 85 (50 + dominanceRatio * 35) in
         ret {| v_score := score;
                v_label := if Qle_bool 75 score then "Highly Conservative"
                           else "Conservative";
                v_confidence := Qmin 0.85 (0.6 + dominanceRatio * 0.25) |}
       else if JS.Qltb (inject_Z totalPoliticalScore * 1.5) (inject_Z neutralScore)
               && (totalPoliticalScore <? 3) then
         ret (initial 0.6)
       else
         r <~ Math_random ;;
         if JS.Qltb 0.5 r
         then ret {| v_score := 35; v_label := "Liberal"; v_confidence := 0.6 |}
         else ret {| v_score := 65; v_label := "Conservative"; v_confidence := 0.6 |}
     else
       r <~ Math_random ;;
       if JS.Qltb 0.6 r then
         r' <~ Math_random ;;
         let score : Q := if JS.Qltb 0.5 r' then 35 else 65 in
         ret {| v_score := score;
                v_label := if JS.Qltb score 50 then "Liberal" else "Conservative";
                v_confidence := 0.5 |}
       else ret (initial 0.5))%Q ;;
  ret {| biasScore := JS.of_Z (Math_round (v_score verdict));
         biasLabel := JS.Str (v_label verdict);
         confidence := JS.Fin (v_confidence verdict);
         reasoning :=
           JS.Str ("Content-based analysis: Detected " +:+ pretty liberalScore
                   +:+ " liberal, " +:+ pretty conservativeScore
                   +:+ " conservative, and " +:+ pretty neutralScore
                   +:+ " neutral indicators in the article content from " +:+ source);
         keyIndicators :=
           JS.Arr [JS.Str "content-analysis"; JS.Str "keyword-detection";
                   JS.Str "linguistic-patterns"];
         sourceReliability := JS.Str "Unknown";
         analysisMethod := "CTN content-based linguistic analysis" |}.

(** *** Tier 2: source reputation, then the article in its light *)

(** [o.k] in the monad: a TypeError when [o] is [undefined] or [null]. *)
Definition prop (o : JS.val) (k : string) : M JS.val :=
  of_option TypeError (JS.get o k).

Definition source_cacheKey (source : string) : string :=
  "ctn_source_bias_" +:+ Text.underscore_non_alnum (toLowerCase source).

(** The object returned by tier 2 from the two parsed replies; [None] is the
    TypeError of reading a property of [undefined] or [null], or of spreading
    a value that is not iterable. *)
Definition combined_result (sourceAnalysis contentAnalysis : JS.val)
  : option BiasAnalysis :=
  finalBiasScore ← JS.get contentAnalysis "finalBiasScore";
  source_score ← JS.get sourceAnalysis "biasScore";
  finalBiasLabel ← JS.get contentAnalysis "finalBiasLabel";
  source_label ← JS.get sourceAnalysis "biasLabel";
  content_confidence ← JS.get contentAnalysis "confidence";
  source_confidence ← JS.get sourceAnalysis "confidence";
  source_reasoning ← JS.get sourceAnalysis "reasoning";
  content_reasoning ← JS.get contentAnalysis "reasoning";
  source_indicators ← JS.get sourceAnalysis "keyIndicators";
  source_items ← JS.spread (JS.or source_indicators (JS.Arr []));
  content_indicators ← JS.get contentAnalysis "keyIndicators";
  content_items ← JS.spread (JS.or content_indicators (JS.Arr []));
  source_reliability ← JS.get sourceAnalysis "sourceReliability";
  Some
    {| biasScore :=
         clamp 0 100 (JS.or (JS.or finalBiasScore source_score) (JS.Num (JS.of_Z 50)));
       biasLabel :=
         JS.or (JS.or finalBiasLabel source_label) (JS.Str "Neutral/Centrist");
       confidence :=
         clamp 0 1 (JS.or (JS.or content_confidence source_confidence)
                          (JS.Num (JS.Fin 0.5)));
       reasoning :=
         JS.Str (ToString (JS.or source_reasoning (JS.Str "Source analysis completed"))
                 +:+ ". "
                 +:+ ToString (JS.or content_reasoning
                                     (JS.Str "Content analysis completed")));
       keyIndicators := JS.Arr (source_items ++ content_items);
       sourceReliability := JS.or source_reliability (JS.Str "Medium");
       analysisMethod := "CTN AI-powered real-time source and content assessment" |}.

(** The [try] block of [ctnGetSourceBasedBiasAnalysis]. *)
Definition ctnGetSourceBasedBiasAnalysis_try (source title content : string)
  : M BiasAnalysis :=
  let sourceCacheKey := source_cacheKey source in
  cachedSourceAnalysis <~ ctnCache_get_source sourceCacheKey ;;
  sourceAnalysis <~
    (if JS.truthy (default JS.Undefined cachedSourceAnalysis)
     then ret (default JS.Undefined cachedSourceAnalysis)
     else
       response <~ anthropic_messages_create SourceReputation ;;
       text <~ first_text response ;;
       parsed <~ of_option SyntaxError (ctnParseJsonResponse text) ;;
       _ <~ ctnCache_set_source sourceCacheKey parsed 86400 ;;
       ret parsed) ;;
  (* the second prompt interpolates the label and the score of the source *)
  _ <~ prop sourceAnalysis "biasLabel" ;;
  _ <~ prop sourceAnalysis "biasScore" ;;
  contentResponse <~ anthropic_messages_create ArticleInContext ;;
  contentText <~ first_text contentResponse ;;
  contentAnalysis <~ of_option SyntaxError (ctnParseJsonResponse contentText) ;;
  of_option TypeError (combined_result sourceAnalysis contentAnalysis).

Definition ctnGetSourceBasedBiasAnalysis (source title content : string)
  : M BiasAnalysis :=
  _ <~ log_event Enter_ctnGetSourceBasedBiasAnalysis ;;
  try_catch (ctnGetSourceBasedBiasAnalysis_try source title content)
            (fun error => ctnAnalyzeContentBasedBias title content source).

(** *** Tier 1: direct content analysis *)

Definition bias_cacheKey (content : string) : string :=
  "ctn_bias_" +:+ Text.take 50 (Text.base64 content).

(** The object literal that validates the parsed reply of tier 1; [None] is
    the TypeError of reading a property of [undefined] or [null]. *)
Definition primary_result (biasAnalysis : JS.val) : option BiasAnalysis :=
  score ← JS.get biasAnalysis "biasScore";
  label ← JS.get biasAnalysis "biasLabel";
  conf ← JS.get biasAnalysis "confidence";
  reason ← JS.get biasAnalysis "reasoning";
  indicators ← JS.get biasAnalysis "keyIndicators";
  Some
    {| biasScore := clamp 0 100 (JS.or score (JS.Num (JS.of_Z 50)));
       biasLabel := JS.or label (JS.Str "Neutral/Centrist");
       confidence := clamp 0 1 (JS.or conf (JS.Num (JS.Fin 0.5)));
       reasoning := JS.or reason (JS.Str "AI-powered bias analysis completed");
       keyIndicators := JS.or indicators (JS.Arr []);
       sourceReliability := JS.Undefined;
       analysisMethod := "CTN AI-powered primary analysis" |}.

(** The [try] block of [ctnAnalyzePoliticalBias]. *)
Definition ctnAnalyzePoliticalBias_try (content title source : string)
  : M BiasAnalysis :=
  let cacheKey := bias_cacheKey content in
  cached <~ ctnCache_get_bias cacheKey ;;
  match cached with
  | Some hit => ret hit
  | None =>
      response <~ anthropic_messages_create PrimaryBias ;;
      text <~ first_text response ;;
      biasAnalysis <~ of_option SyntaxError (ctnParseJsonResponse text) ;;
      result <~ of_option TypeError (primary_result biasAnalysis) ;;
      _ <~ ctnCache_set_bias cacheKey result ;;
      ret result
  end.

Definition ctnAnalyzePoliticalBias (content title source : string)
  : M BiasAnalysis :=
  try_catch (ctnAnalyzePoliticalBias_try content title source)
            (fun error => ctnGetSourceBasedBiasAnalysis source title content).

(** ** The route [GET /search] *)

Record Request : Type := {
  req_query : option string;
  req_limit : option string
}.

Record ProcessedArticle : Type := {
  pa_article : Article;
  pa_bias : BiasAnalysis;
  pa_summary : JS.val;
  pa_processedAt : string
}.

Inductive ResponseBody : Type :=
| ErrorBody (error : string) (cause : option exn)
| NoArticlesBody (message query : string)
| ArticlesBody (processed : list ProcessedArticle) (query : string) (total : nat)
               (timestamp : string).

Record Response : Type := {
  status : Z;
  body : ResponseBody
}.

(** [Promise.all(newsData.articles.map(a => aiService.ctnProcessCompleteArticle(a)))]:
    the fan-out over the articles interleaves their provider calls; the
    handler is stated for any such computation. *)
Variable processArticles : list Article -> M (list ProcessedArticle).

(** [limit] after destructuring [req.query] with its default. *)
Definition limit_value (req : Request) : JS.val :=
  match req_limit req with
  | Some l => JS.Str l
  | None => JS.Num (JS.of_Z 10)
  end.

(** [parseInt(limit)] *)
Definition parsed_limit (req : Request) : JS.num :=
  match req_limit req with
  | Some l => parseInt l
  | None => JS.of_Z 10
  end.

(** [query] after destructuring [req.query] with its default. *)
Definition query_value (req : Request) : string :=
  default "latest news" (req_query req).

Definition search_route (req : Request) : M Response :=
  try_catch
    (let query := query_value req in
     let limit := limit_value req in
     if JS.gt (ToNumber limit) (JS.of_Z 20) then
       ret {| status := 400;
              body := ErrorBody "Limit cannot exceed 20 articles" None |}
     else
       newsData <~ ctnSearchNewsArticles query "" (parsed_limit req) ;;
       match articles newsData with
       | [] =>
           ret {| status := 200;
                  body := NoArticlesBody "No articles found for your search query" query |}
       | _ :: _ =>
           processedArticles <~ processArticles (articles newsData) ;;
           now <~ Date_now ;;
           ret {| status := 200;
                  body := ArticlesBody processedArticles query
                            (length processedArticles) (toISOString now) |}
       end)
    (fun error =>
       ret {| status := 500;
              body := ErrorBody "Failed to search news articles" (Some error) |}).

End Service.

(** ** Notions used by the statements and their proofs *)

Definition is_throw {A} (r : outcome A * State) : bool :=
  match r with
  | (Throw _, _) => true
  | (Ok _, _) => false
  end.

(** The five-bucket rubric of the specification (also the scale quoted in
    the tier-1 prompt): 0-20, 21-40, 41-60, 61-80, 81-100. *)
Definition rubric_label (score : Z) : string :=
  if score <=? 20 then "Highly Liberal"
  else if score <=? 40 then "Liberal"
  else if score <=? 60 then "Neutral/Centrist"
  else if score <=? 80 then "Conservative"
  else "Highly Conservative".

Definition bias_labels : list string :=
  ["Highly Liberal"; "Liberal"; "Neutral/Centrist"; "Conservative";
   "Highly Conservative"].

(** [lo <= n <= hi] for a number that is neither NaN nor infinite. *)
Definition between (lo hi : Q) (n : JS.num) : Prop :=
  match n with
  | JS.Fin q => (lo <= q /\ q <= hi)%Q
  | _ => False
  end.

Definition is_Str (v : JS.val) : Prop :=
  match v with JS.Str _ => True | _ => False end.

(** Shape of the object the keyword heuristic returns. *)
Definition well_formed (b : BiasAnalysis) : Prop :=
  (exists n : Z, biasScore b = JS.of_Z n /\ 0 <= n <= 100) /\
  (exists l, biasLabel b = JS.Str l /\ In l bias_labels) /\
  between 0 1 (confidence b) /\
  is_Str (reasoning b) /\
  (exists items, keyIndicators b = JS.Arr items /\ Forall is_Str items) /\
  analysisMethod b = "CTN content-based linguistic analysis".

(** The buckets the keyword heuristic itself uses for its labels. *)
Definition heuristic_bucket (n : Z) (l : string) : Prop :=
  (l = "Highly Liberal" /\ 15 <= n <= 25) \/
  (l = "Liberal" /\ 25 <= n <= 40) \/
  (l = "Neutral/Centrist" /\ n = 50) \/
  (l = "Conservative" /\ 61 <= n <= 75) \/
  (l = "Highly Conservative" /\ 75 <= n <= 85).

(** No political keyword in title or content, no listed source. *)
Definition no_political_signal {host : Host} (title content source : string) : Prop :=
  keywordScore liberalKeywords (toLowerCase title) (toLowerCase content) = 0 /\
  keywordScore conservativeKeywords (toLowerCase title) (toLowerCase content) = 0 /\
  existsb (fun src => Text.includes (toLowerCase source) src) liberalSources = false /\
  existsb (fun src => Text.includes (toLowerCase source) src) conservativeSources = false.

(** Every cached search result has pairwise distinct urls. *)
Definition news_cache_unique (s : State) : Prop :=
  forall k t nd, news_cache s !! k = Some (t, nd) -> NoDup (map a_url (articles nd)).

(** The replies to the four searches a call issues from state [s]. *)
Definition pending_searches (e : Env) (s : State) : list ExaReply :=
  [exa e (exa_calls s); exa e (S (exa_calls s)); exa e (S (S (exa_calls s)));
   exa e (S (S (S (exa_calls s))))].

(** The provider search fails: a rejection, or nothing within 10 s. *)
Definition search_fails (e : Env) (s : State) : bool :=
  let '(t, r) := Promise_all (pending_searches e s) in
  negb (t <? 10000) || match r with None => true | Some _ => false end.

Definition merged_results (e : Env) (s : State) : list ExaResult :=
  concat (map (fun p => match exa_response p with
                        | Some (Some results) => results
                        | _ => []
                        end) (pending_searches e s)).

(** What a lookup in the search cache answers in state [s]. *)
Definition news_lookup (s : State) (k : string) : option NewsData :=
  fst (nc_get (clock s) k (news_cache s)).

Definition bias_lookup (s : State) (k : string) : option BiasAnalysis :=
  fst (nc_get (clock s) k (bias_cache s)).

(** First result with a given url. *)
Definition first_with_url (u : string) (l : list ExaResult) : option ExaResult :=
  find (fun r => String.eqb (r_url r) u) l.

(** Every cached tier-1 result was built by [primary_result]. *)
Definition bias_cache_primary {host : Host} (s : State) : Prop :=
  forall k t b, bias_cache s !! k = Some (t, b) -> exists v, primary_result v = Some b.

(** States of a running service: it starts with an empty cache; then
    articles are searched and classified, and time passes. *)
Inductive reachable {host : Host} : State -> Prop :=
| reach_start (s : State) :
    news_cache s = ∅ -> bias_cache s = ∅ -> source_cache s = ∅ -> reachable s
| reach_search (query sources : string) (limit : JS.num) (e : Env) (s : State) :
    reachable s -> reachable (snd (ctnSearchNewsArticles query sources limit e s))
| reach_classify (content title source : string) (e : Env) (s : State) :
    reachable s -> reachable (snd (ctnAnalyzePoliticalBias content title source e s))
| reach_wait (t : Z) (s : State) :
    reachable s -> reachable (set_clock t s).

(** *** The replies of the model, as the tiers read them *)

(** [undefined] or [null]: reading a property of such a value raises a
    TypeError. *)
Definition nullish (v : JS.val) : bool :=
  match v with
  | JS.Undefined | JS.Null => true
  | _ => false
  end.






(** States of a service that runs in the world [e]: as [reachable], with
    every call answered by the same oracle. *)
Inductive reachable_in {host : Host} (e : Env) : State -> Prop :=
| reach_in_start (s : State) :
    news_cache s = ∅ -> bias_cache s = ∅ -> source_cache s = ∅ -> reachable_in e s
| reach_in_search (query sources : string) (limit : JS.num) (s : State) :
    reachable_in e s -> reachable_in e (snd (ctnSearchNewsArticles query sources limit e s))
| reach_in_classify (content title source : string) (s : State) :
    reachable_in e s -> reachable_in e (snd (ctnAnalyzePoliticalBias content title source e s))
| reach_in_wait (t : Z) (s : State) :
    reachable_in e s -> reachable_in e (set_clock t s).



(** [m] does not change the part [proj] of the state. *)
Definition keeps {A B} (proj : State -> B) (m : M A) : Prop :=
  forall e s, proj (snd (m e s)) = proj s.

(** [m] preserves the state invariant [I]. *)
Definition preserves {A} (I : State -> Prop) (m : M A) : Prop :=
  forall e s, I s -> I (snd (m e s)).

(** State reached by the heuristic: only the trace and the number of random
    draws change. *)
Definition heuristic_frame (s s' : State) : Prop :=
  trace s' = trace s ++ [Enter_ctnAnalyzeContentBasedBias] /\
  clock s' = clock s /\ news_cache s' = news_cache s /\
  bias_cache s' = bias_cache s /\ source_cache s' = source_cache s /\
  llm_calls s' = llm_calls s /\ exa_calls s' = exa_calls s.

(** The same world with another stream of random numbers. *)
Definition with_random (e : Env) (r : nat -> Q) : Env :=
  {| llm := llm e; exa := exa e; random := r |}.

Definition is_LlmCall (ev : Event) : bool :=
  match ev with LlmCall _ => true | _ => false end.

(** [m] appends to the trace a subsequence of [allowed], makes exactly the
    LLM calls it records, and leaves the search counter alone. *)
Definition emits {A} (m : M A) (allowed : list Event) : Prop :=
  forall e s, exists tr,
    trace (snd (m e s)) = trace s ++ tr /\ sublist tr allowed /\
    llm_calls (snd (m e s)) = (llm_calls s + length (List.filter is_LlmCall tr))%nat.

(** [m] leaves the trace and the LLM counter alone. *)
Definition silent {A} (m : M A) : Prop :=
  forall e s,
    trace (snd (m e s)) = trace s /\ llm_calls (snd (m e s)) = llm_calls s.

(** The events of one classification, in program order. *)
Definition chain_events : list Event :=
  [LlmCall PrimaryBias; Enter_ctnGetSourceBasedBiasAnalysis;
   LlmCall SourceReputation; LlmCall ArticleInContext;
   Enter_ctnAnalyzeContentBasedBias].

(** ** Sample runtime, oracles and states for the examples *)

Module Sample.

Definition dq : string := String (ascii_of_nat 34) EmptyString.

Definition quoted (s : string) : string := dq +:+ s +:+ dq.

Fixpoint digits_value (acc : Z) (s : string) : option Z :=
  match s with
  | EmptyString => Some acc
  | String c rest =>
      let n := Z.of_N (N_of_ascii c) in
      if (48 <=? n) && (n <=? 57) then digits_value (acc * 10 + (n - 48)) rest
      else None
  end.

(** Decimal digit strings denote their value; other non-empty strings used
    below ("high", "low") are not numeric. *)
Definition number_of_string (s : string) : JS.num :=
  match digits_value 0 s with
  | Some z => JS.of_Z z
  | None => JS.NaN
  end.

Definition text_negative : string :=
  "{" +:+ quoted "biasScore" +:+ ": -5, " +:+ quoted "confidence" +:+ ": -1}".

Definition text_words : string :=
  "{" +:+ quoted "biasScore" +:+ ": " +:+ quoted "high" +:+ ", "
      +:+ quoted "confidence" +:+ ": " +:+ quoted "low" +:+ "}".

Definition text_zero : string :=
  "{" +:+ quoted "biasScore" +:+ ": 0, " +:+ quoted "confidence" +:+ ": 0}".

Definition text_mislabelled : string :=
  "{" +:+ quoted "biasScore" +:+ ": 10, " +:+ quoted "biasLabel" +:+ ": "
      +:+ quoted "Conservative" +:+ "}".

Definition text_source : string :=
  "{" +:+ quoted "biasScore" +:+ ": 30, " +:+ quoted "biasLabel" +:+ ": "
      +:+ quoted "Liberal" +:+ ", " +:+ quoted "confidence" +:+ ": 0.8}".

Definition text_article : string :=
  "{" +:+ quoted "finalBiasScore" +:+ ": 35, " +:+ quoted "finalBiasLabel" +:+ ": "
      +:+ quoted "Liberal" +:+ ", " +:+ quoted "confidence" +:+ ": 0.9}".

(** [JSON.parse] on the reply texts above and on the literal [null]; any
    other text is taken to be malformed. *)
Definition parse_table : list (string * JS.val) :=
  [(text_negative,
    JS.Obj [("biasScore", JS.Num (JS.of_Z (-5))); ("confidence", JS.Num (JS.of_Z (-1)))]);
   (text_words,
    JS.Obj [("biasScore", JS.Str "high"); ("confidence", JS.Str "low")]);
   (text_zero,
    JS.Obj [("biasScore", JS.Num (JS.of_Z 0)); ("confidence", JS.Num (JS.of_Z 0))]);
   (text_mislabelled,
    JS.Obj [("biasScore", JS.Num (JS.of_Z 10)); ("biasLabel", JS.Str "Conservative")]);
   (text_source,
    JS.Obj [("biasScore", JS.Num (JS.of_Z 30)); ("biasLabel", JS.Str "Liberal");
            ("confidence", JS.Num (JS.Fin 0.8))]);
   (text_article,
    JS.Obj [("finalBiasScore", JS.Num (JS.of_Z 35)); ("finalBiasLabel", JS.Str "Liberal");
            ("confidence", JS.Num (JS.Fin 0.9))]);
   ("null", JS.Null)].

Definition parse (text : string) : option JS.val :=
  snd <$> find (fun entry => String.eqb (fst entry) text) parse_table.

(** Strings print as they are and integers in decimal. *)
Definition string_of_val (v : JS.val) : string :=
  match v with
  | JS.Str s => s
  | JS.Num (JS.Fin q) => pretty (Qfloor q)
  | JS.Num JS.NaN => "NaN"
  | _ => "[object Object]"
  end.

(** The part of a string before its first "/". *)
Fixpoint before_slash (s : string) : string :=
  match s with
  | EmptyString => EmptyString
  | String c rest =>
      if Ascii.eqb c "/"%char then EmptyString else String c (before_slash rest)
  end.

Definition lower_ascii (c : ascii) : ascii :=
  let n := N_of_ascii c in
  if ((65 <=? n) && (n <=? 90))%N then ascii_of_N (n + 32) else c.

(** Lower case of a string of ASCII characters. *)
Fixpoint lower (s : string) : string :=
  match s with
  | EmptyString => EmptyString
  | String c rest => String (lower_ascii c) (lower rest)
  end.

(** A runtime for the examples: it agrees with the built-ins on the inputs
    the examples use (the reply texts above, decimal digit strings, urls of
    the form https://host/path, ASCII text; timestamps print as their
    millisecond count). *)
Definition host : Host :=
  {| JSON_parse := parse;
     StringToNumber := number_of_string;
     ToString := string_of_val;
     parseInt := number_of_string;
     URL_hostname := fun u => Some (before_slash (Text.drop 8 u));
     toISOString := fun ms => pretty ms;
     toLowerCase := lower |}.

Definition state0 : State :=
  {| clock := 1700000000000; news_cache := ∅; bias_cache := ∅; source_cache := ∅;
     llm_calls := 0; exa_calls := 0; random_calls := 0; trace := [] |}.

Definition plain_result (u t : string) : ExaResult :=
  {| r_url := u; r_title := JS.Str t; r_text := JS.Str "text";
     r_summary := JS.Undefined; r_publishedDate := JS.Undefined;
     r_author := JS.Undefined; r_image := JS.Undefined; r_imageUrl := JS.Undefined;
     r_featuredImage := JS.Undefined; r_thumbnail := JS.Undefined |}.

Definition exa_answers (n : nat) : ExaReply :=
  {| exa_latency := 120;
     exa_response :=
       Some (Some
         match n with
         | O => [plain_result "https://vox.com/a" "A"; plain_result "https://cnn.com/b" "B"]
         | 1%nat => [plain_result "https://wsj.com/c" "C"]
         | 2%nat => [plain_result "https://npr.org/d" "D"]
         | _ => [plain_result "https://cnn.com/b" "B again";
                 plain_result "https://wsj.com/c" "C again";
                 plain_result "https://bbc.com/e" "E"]
         end) |}.

Definition exa_down (n : nat) : ExaReply :=
  {| exa_latency := 300; exa_response := None |}.

Definition exa_slow (n : nat) : ExaReply :=
  {| exa_latency := 15000; exa_response := Some (Some []) |}.

Definition llm_down (n : nat) : LlmReply :=
  {| llm_latency := 50; llm_content := None |}.

Definition llm_says (text : string) (n : nat) : LlmReply :=
  {| llm_latency := 900; llm_content := Some [text] |}.


(** The tier-1 call is rejected, the two calls of tier 2 are answered. *)
Definition llm_primary_down (n : nat) : LlmReply :=
  match n with
  | O => {| llm_latency := 50; llm_content := None |}
  | 1%nat => {| llm_latency := 800; llm_content := Some [text_source] |}
  | _ => {| llm_latency := 700; llm_content := Some [text_article] |}
  end.

Definition env (l : nat -> LlmReply) (x : nat -> ExaReply) (r1 r2 : Q) : Env :=
  {| llm := l; exa := x;
     random := fun n => match n with O => r1 | _ => r2 end |}.


End Sample.

(** * Properties *)

(** ** The definitions on small inputs *)

Example matches_do_not_overlap : Text.matchCount "aaaa" "aa" = 2%nat.
Proof. reflexivity. Qed.

Example title_counts_twice :
  keywordScore conservativeKeywords "republicans" "" = 4.
Proof. reflexivity. Qed.

Example uppercase_keyword_never_matches :
  Text.matchCount (@toLowerCase Sample.host "LGBTQ rights") "LGBTQ" = 0%nat.
Proof. reflexivity. Qed.

Example round_half_up : Math_round 60.5 = 61 /\ Math_round 23.75 = 24.
Proof. split; reflexivity. Qed.

Example clamp_above : @clamp Sample.host 0 100 (JS.Num (JS.of_Z 150)) = JS.of_Z 100.
Proof. reflexivity. Qed.

Example clamp_word : @clamp Sample.host 0 100 (JS.Str "high") = JS.NaN.
Proof. reflexivity. Qed.

Example source_of_url :
  @ctnExtractSourceDomain Sample.host "https://www.vox.com/policy" = "vox".
Proof. reflexivity. Qed.

Example fences_removed :
  strip_markdown ("```json" +:+ " {} " +:+ "```") = "{}".
Proof. reflexivity. Qed.

(** A no-break space (U+00A0) after the fence and a line separator (U+2028)
    at the end are white space too. *)
Example fences_removed_unicode :
  strip_markdown
    ("```json" +:+ String (ascii_of_nat 194) (String (ascii_of_nat 160) "{}")
     +:+ String (ascii_of_nat 226) (String (ascii_of_nat 128) (String (ascii_of_nat 168) "")))
  = "{}".
Proof. reflexivity. Qed.

(** One underscore for a character of two bytes (U+00E9), two for one of
    four bytes (U+1F600). *)
Example underscores_per_code_unit :
  Text.underscore_non_alnum
    ("a" +:+ String (ascii_of_nat 195) (String (ascii_of_nat 169) "b")
     +:+ String (ascii_of_nat 240) (String (ascii_of_nat 159)
           (String (ascii_of_nat 152) (String (ascii_of_nat 128) "c"))))
  = "a_b__c".
Proof. reflexivity. Qed.

Example spread_by_code_point :
  length (JS.code_points
            ("a" +:+ String (ascii_of_nat 195) (String (ascii_of_nat 169) "b"))) = 3%nat.
Proof. reflexivity. Qed.

Example base64_of_text : Text.base64 "hello world" = "aGVsbG8gd29ybGQ=".
Proof. reflexivity. Qed.

Example slice_negative_limit :
  slice0 (JS.of_Z (-1)) [1; 2; 3] = [1; 2] /\ slice0 JS.NaN [1; 2; 3] = [].
Proof. split; reflexivity. Qed.

Example dedupe_keeps_first :
  map r_title
    (uniqueResults [Sample.plain_result "u" "first"; Sample.plain_result "v" "other";
                    Sample.plain_result "u" "second"])
  = [JS.Str "first"; JS.Str "other"].
Proof. reflexivity. Qed.

(** A listed conservative source without any keyword: score 85. *)
Example heuristic_on_listed_source :
  exists b s',
    @ctnAnalyzeContentBasedBias Sample.host "Hello" "nothing here" "FoxNews"
      (Sample.env Sample.llm_down Sample.exa_down 0 0) Sample.state0 = (Ok b, s') /\
    biasScore b = JS.of_Z 85 /\ biasLabel b = JS.Str "Highly Conservative".
Proof. eexists _, _. split; [vm_compute; reflexivity|]. split; reflexivity. Qed.

(** Tier 1 rejected, tier 2 answered: the result combines the two replies of
    tier 2 and the heuristic is not entered. *)
Example source_analysis_on_sample_replies :
  exists b s',
    @ctnAnalyzePoliticalBias Sample.host "Senate passes the budget." "Budget" "example"
      (Sample.env Sample.llm_primary_down Sample.exa_down 0 0) Sample.state0
      = (Ok b, s') /\
    biasScore b = JS.of_Z 35 /\ biasLabel b = JS.Str "Liberal" /\
    confidence b = JS.Fin 0.9 /\
    analysisMethod b = "CTN AI-powered real-time source and content assessment" /\
    trace s' = [LlmCall PrimaryBias; Enter_ctnGetSourceBasedBiasAnalysis;
                LlmCall SourceReputation; LlmCall ArticleInContext] /\
    clock s' = clock Sample.state0 + 1550.
Proof.
  eexists _, _. split; [vm_compute; reflexivity|]. repeat split.
Qed.


(** ** Arithmetic of the clamps and of the heuristic *)

Lemma Qmax_cases (x y : Q) :
  (Qmax x y = x /\ (y <= x)%Q) \/ (Qmax x y = y /\ (x <= y)%Q).
Proof.
  unfold Qmax, GenericMinMax.gmax.
  destruct (Qcompare_spec x y) as [E | E | E].
  - left. split; [reflexivity | rewrite E; apply Qle_refl].
  - right. split; [reflexivity | apply Qlt_le_weak, E].
  - left. split; [reflexivity | apply Qlt_le_weak, E].
Qed.

Lemma Qmin_cases (x y : Q) :
  (Qmin x y = x /\ (x <= y)%Q) \/ (Qmin x y = y /\ (y <= x)%Q).
Proof.
  unfold Qmin, GenericMinMax.gmin.
  destruct (Qcompare_spec x y) as [E | E | E].
  - left. split; [reflexivity | rewrite E; apply Qle_refl].
  - left. split; [reflexivity | apply Qlt_le_weak, E].
  - right. split; [reflexivity | apply Qlt_le_weak, E].
Qed.

Lemma Qltb_true (x y : Q) : JS.Qltb x y = true <-> (x < y)%Q.
Proof.
  unfold JS.Qltb. rewrite negb_true_iff.
  split; intros H.
  - apply Qnot_le_lt. intros L. apply Qle_bool_iff in L. congruence.
  - destruct (Qle_bool y x) eqn:E; [|reflexivity].
    apply Qle_bool_iff in E. exfalso. eapply Qlt_not_le; eauto.
Qed.

Lemma Qltb_false (x y : Q) : JS.Qltb x y = false <-> (y <= x)%Q.
Proof.
  unfold JS.Qltb. rewrite negb_false_iff. apply Qle_bool_iff.
Qed.

Lemma Math_round_bounds (lo hi : Z) (x : Q) :
  (inject_Z lo <= x)%Q -> (x <= inject_Z hi)%Q -> lo <= Math_round x <= hi.
Proof.
  intros Hlo Hhi. unfold Math_round. split.
  - rewrite <- (Qfloor_Z lo). apply Qfloor_resp_le. lra.
  - assert (H : (x + (1 # 2) < inject_Z (hi + 1))%Q).
    { rewrite inject_Z_plus. change (inject_Z 1) with 1%Q. lra. }
    pose proof (Qfloor_le (x + (1 # 2))) as F.
    assert (G : (inject_Z (Qfloor (x + (1 # 2))) < inject_Z (hi + 1))%Q) by lra.
    rewrite <- Zlt_Qlt in G. lia.
Qed.

Lemma Math_round_half_down (hi : Z) (x : Q) :
  (x < inject_Z hi + (1 # 2))%Q -> Math_round x <= hi.
Proof.
  intros H. unfold Math_round.
  pose proof (Qfloor_le (x + (1 # 2))) as F.
  assert (G : (inject_Z (Qfloor (x + (1 # 2))) < inject_Z (hi + 1))%Q).
  { rewrite inject_Z_plus. change (inject_Z 1) with 1%Q. lra. }
  rewrite <- Zlt_Qlt in G. lia.
Qed.

Lemma Math_round_half_up (lo : Z) (x : Q) :
  (inject_Z lo - (1 # 2) <= x)%Q -> lo <= Math_round x.
Proof.
  intros H. unfold Math_round.
  rewrite <- (Qfloor_Z lo). apply Qfloor_resp_le. lra.
Qed.

(** ** The keyword heuristic *)

Lemma liberal_branch (x : Q) :
  let ratio := Qmax 0.3 x in
  let score := Qmax 15 (50 - ratio * 35) in
  heuristic_bucket (Math_round score)
    (if Qle_bool score 25 then "Highly Liberal" else "Liberal") /\
  (0.5 <= Qmin 0.85 (0.6 + ratio * 0.25) /\ Qmin 0.85 (0.6 + ratio * 0.25) <= 0.85)%Q.
Proof.
  intros ratio score.
  assert (Hr : (0.3 <= ratio)%Q).
  { unfold ratio. destruct (Qmax_cases 0.3 x) as [[-> H] | [-> H]]; lra. }
  assert (Hs : (15 <= score /\ score <= 39.5)%Q).
  { unfold score. destruct (Qmax_cases 15 (50 - ratio * 35)) as [[-> H] | [-> H]]; lra. }
  clearbody score ratio. split.
  - destruct (Qle_bool score 25) eqn:E.
    + left. split; [reflexivity|]. apply Qle_bool_iff in E.
      apply Math_round_bounds; unfold inject_Z; lra.
    + right. left. split; [reflexivity|].
      assert (25 < score)%Q.
      { apply Qnot_le_lt. intros L. apply Qle_bool_iff in L. congruence. }
      split.
      * apply Math_round_half_up. unfold inject_Z. lra.
      * apply Math_round_half_down. unfold inject_Z. lra.
  - destruct (Qmin_cases 0.85 (0.6 + ratio * 0.25)) as [[-> H] | [-> H]]; lra.
Qed.

Lemma conservative_branch (x : Q) :
  let ratio := Qmax 0.3 x in
  let score := Qmin 85 (50 + ratio * 35) in
  heuristic_bucket (Math_round score)
    (if Qle_bool 75 score then "Highly Conservative" else "Conservative") /\
  (0.5 <= Qmin 0.85 (0.6 + ratio * 0.25) /\ Qmin 0.85 (0.6 + ratio * 0.25) <= 0.85)%Q.
Proof.
  intros ratio score.
  assert (Hr : (0.3 <= ratio)%Q).
  { unfold ratio. destruct (Qmax_cases 0.3 x) as [[-> H] | [-> H]]; lra. }
  assert (Hs : (60.5 <= score /\ score <= 85)%Q).
  { unfold score. destruct (Qmin_cases 85 (50 + ratio * 35)) as [[-> H] | [-> H]]; lra. }
  clearbody score ratio. split.
  - destruct (Qle_bool 75 score) eqn:E.
    + right. right. right. right. split; [reflexivity|]. apply Qle_bool_iff in E.
      apply Math_round_bounds; unfold inject_Z; lra.
    + right. right. right. left. split; [reflexivity|].
      assert (score < 75)%Q.
      { apply Qnot_le_lt. intros L. apply Qle_bool_iff in L. congruence. }
      split.
      * apply Math_round_half_up. unfold inject_Z. lra.
      * apply Math_round_half_down. unfold inject_Z. lra.
  - destruct (Qmin_cases 0.85 (0.6 + ratio * 0.25)) as [[-> H] | [-> H]]; lra.
Qed.

Lemma keywordScore_nonneg (keywords : list string) (t c : string) :
  0 <= keywordScore keywords t c.
Proof.
  unfold keywordScore.
  assert (H : forall acc, 0 <= acc ->
    0 <= fold_left (fun score keyword =>
           score + (Z.of_nat (Text.matchCount t keyword) * 2
                    + Z.of_nat (Text.matchCount c keyword))) keywords acc).
  { induction keywords as [| k ks IH]; intros acc Hacc; simpl; [exact Hacc|].
    apply IH. lia. }
  apply H. lia.
Qed.

Lemma heuristic_run {host : Host} (title content source : string) (e : Env)
  (s : State) :
  exists n l q r s',
    ctnAnalyzeContentBasedBias title content source e s =
      (Ok {| biasScore := JS.of_Z n; biasLabel := JS.Str l; confidence := JS.Fin q;
             reasoning := JS.Str r;
             keyIndicators :=
               JS.Arr [JS.Str "content-analysis"; JS.Str "keyword-detection";
                       JS.Str "linguistic-patterns"];
             sourceReliability := JS.Str "Unknown";
             analysisMethod := "CTN content-based linguistic analysis" |}, s') /\
    heuristic_bucket n l /\ (0.5 <= q /\ q <= 0.85)%Q /\ heuristic_frame s s'.
Proof.
  unfold ctnAnalyzeContentBasedBias.
  generalize (keywordScore_nonneg liberalKeywords (toLowerCase title) (toLowerCase content)).
  generalize (keywordScore_nonneg conservativeKeywords (toLowerCase title) (toLowerCase content)).
  generalize (keywordScore liberalKeywords (toLowerCase title) (toLowerCase content)).
  generalize (keywordScore conservativeKeywords (toLowerCase title) (toLowerCase content)).
  generalize (keywordScore neutralKeywords (toLowerCase title) (toLowerCase content)).
  intros nz cz lz Hc Hl.
  assert (Hsrc : exists L C m,
    (if existsb (fun src => Text.includes (toLowerCase source) src) liberalSources
     then (lz + 10, cz, -25)
     else if existsb (fun src => Text.includes (toLowerCase source) src) conservativeSources
     then (lz, cz + 10, 25) else (lz, cz, 0)) = (L, C, m) /\
    (m = 0 \/ (0 < L + C /\ (m = -25 \/ m = 25)))).
  { destruct (existsb _ liberalSources); [|destruct (existsb _ conservativeSources)];
      do 3 eexists; (split; [reflexivity|]); [right | right | left]; try reflexivity;
      (split; [lia|]); [left | right]; reflexivity. }
  destruct Hsrc as (L & C & m & -> & Hm).
  cbv [bind ret log_event Math_random].
  destruct (0 <? L + C) eqn:Htot.
  - destruct ((C <? L) || (m <? 0)) eqn:Hlib.
    + destruct (liberal_branch (inject_Z (L + Z.abs m) / inject_Z (1 `max` (L + C + 10)))) as [Hb Hq].
      do 5 eexists. split; [reflexivity|]. cbn [v_score v_label v_confidence].
      split; [exact Hb|]. split; [exact Hq|]. repeat split.
    + destruct ((L <? C) || (0 <? m)) eqn:Hcon.
      * destruct (conservative_branch (inject_Z (C + Z.abs m) / inject_Z (1 `max` (L + C + 10)))) as [Hb Hq].
        do 5 eexists. split; [reflexivity|]. cbn [v_score v_label v_confidence].
        split; [exact Hb|]. split; [exact Hq|]. repeat split.
      * assert (m = 0).
        { apply orb_false_iff in Hlib as [_ H1]. apply orb_false_iff in Hcon as [_ H2].
          destruct Hm as [-> | [_ [-> | ->]]]; [reflexivity | discriminate | discriminate]. }
        subst m.
        destruct (JS.Qltb _ _ && _).
        -- do 5 eexists. split; [reflexivity|]. cbn [v_score v_label v_confidence].
           split; [right; right; left; split; [reflexivity | reflexivity]|].
           split; [lra|]. repeat split.
        -- destruct (JS.Qltb 0.5 _);
           do 5 eexists; (split; [reflexivity|]); cbn [v_score v_label v_confidence];
           (split; [|split; [lra | repeat split]]).
           ++ right; left. split; [reflexivity | vm_compute; split; discriminate].
           ++ right; right; right; left. split; [reflexivity | vm_compute; split; discriminate].
  - assert (m = 0) as -> by (apply Z.ltb_ge in Htot; lia).
    destruct (JS.Qltb 0.6 _); [destruct (JS.Qltb 0.5 _)|];
      do 5 eexists; (split; [reflexivity|]); cbn [v_score v_label v_confidence];
      (split; [|split; [lra | repeat split]]).
    + right; left. split; [reflexivity | vm_compute; split; discriminate].
    + right; right; right; left. split; [reflexivity | vm_compute; split; discriminate].
    + right; right; left. split; reflexivity.
Qed.

(** C3.  For every title, content and source string the keyword heuristic
    returns (it never throws), and what it returns is a well-formed
    BiasAnalysis: an integer score between 0 and 100, one of the five labels,
    a confidence between 0 and 1, a reasoning string, a list of indicator
    strings and the tag of the heuristic as analysis method. *)
Theorem heuristic_returns_well_formed {host : Host}
  (title content source : string) (e : Env) (s : State) :
  exists b s',
    ctnAnalyzeContentBasedBias title content source e s = (Ok b, s') /\
    well_formed b.
Proof.
  destruct (heuristic_run title content source e s)
    as (n & l & q & r & s' & Hrun & Hb & Hq & _).
  eexists _, s'. split; [exact Hrun|].
  unfold well_formed; cbn.
  repeat split.
  - exists n. split; [reflexivity|].
    unfold heuristic_bucket in Hb. lia.
  - exists l. split; [reflexivity|].
    unfold heuristic_bucket in Hb. unfold bias_labels. cbn.
    destruct Hb as [[-> _] | [[-> _] | [[-> _] | [[-> _] | [-> _]]]]]; tauto.
  - lra.
  - lra.
  - eexists. split; [reflexivity|]. repeat constructor.
Qed.

(** Outcome of the heuristic when nothing political is detected, as a
    function of the two numbers [Math.random] returns. *)
Lemma heuristic_without_signal {host : Host}
  (title content source : string) (e : Env) (s : State) :
  no_political_signal title content source ->
  exists b s',
    ctnAnalyzeContentBasedBias title content source e s = (Ok b, s') /\
    (biasScore b, biasLabel b) =
      (if JS.Qltb 0.6 (random e (random_calls s))
       then if JS.Qltb 0.5 (random e (S (random_calls s)))
            then (JS.of_Z 35, JS.Str "Liberal")
            else (JS.of_Z 65, JS.Str "Conservative")
       else (JS.of_Z 50, JS.Str "Neutral/Centrist")).
Proof.
  intros (Hl & Hc & Hls & Hcs).
  unfold ctnAnalyzeContentBasedBias.
  rewrite Hl, Hc, Hls, Hcs.
  generalize (keywordScore neutralKeywords (toLowerCase title) (toLowerCase content)).
  intros nz.
  cbv [bind ret log_event Math_random].
  change (0 <? 0 + 0) with false. cbv iota.
  cbn [random_calls].
  destruct (JS.Qltb 0.6 _); [destruct (JS.Qltb 0.5 _)|];
    do 2 eexists; (split; [reflexivity|]); reflexivity.
Qed.

(** C9, as amended.  When no political keyword is detected in the title or
    the content and the source is on neither list, the random draws decide:
    the score stays 50, labelled Neutral/Centrist, when the first draw is at
    most 0.6; otherwise a second draw assigns the liberal anchor (35,
    Liberal) when it exceeds 0.5 and the conservative anchor (65,
    Conservative) when it does not.  In particular two runs on the same
    title, content and source can classify differently. *)
Theorem heuristic_random_without_signal {host : Host}
  (title content source : string) :
  no_political_signal title content source ->
  (forall e s, exists b s',
      ctnAnalyzeContentBasedBias title content source e s = (Ok b, s') /\
      (biasScore b, biasLabel b) =
        (if JS.Qltb 0.6 (random e (random_calls s))
         then if JS.Qltb 0.5 (random e (S (random_calls s)))
              then (JS.of_Z 35, JS.Str "Liberal")
              else (JS.of_Z 65, JS.Str "Conservative")
         else (JS.of_Z 50, JS.Str "Neutral/Centrist"))) /\
  (forall e s, exists b1 s1 b2 s2,
      ctnAnalyzeContentBasedBias title content source
        (with_random e (fun _ => 0.9%Q)) s = (Ok b1, s1) /\
      ctnAnalyzeContentBasedBias title content source
        (with_random e (fun n => if Nat.eqb n (random_calls s) then 0.9%Q else 0.1%Q)) s
        = (Ok b2, s2) /\
      biasLabel b1 = JS.Str "Liberal" /\ biasLabel b2 = JS.Str "Conservative" /\
      biasScore b1 = JS.of_Z 35 /\ biasScore b2 = JS.of_Z 65).
Proof.
  intros Hsig. split.
  - intros e s. apply heuristic_without_signal, Hsig.
  - intros e s.
    destruct (heuristic_without_signal title content source
                (with_random e (fun _ => 0.9%Q)) s Hsig) as (b1 & s1 & R1 & E1).
    destruct (heuristic_without_signal title content source
                (with_random e (fun n => if Nat.eqb n (random_calls s) then 0.9%Q else 0.1%Q))
                s Hsig) as (b2 & s2 & R2 & E2).
    exists b1, s1, b2, s2.
    cbn [with_random random] in E1, E2.
    rewrite Nat.eqb_refl in E2.
    replace (Nat.eqb (S (random_calls s)) (random_calls s)) with false in E2
      by (symmetry; apply Nat.eqb_neq; lia).
    change (JS.Qltb 0.6 0.9) with true in E1, E2.
    change (JS.Qltb 0.5 0.9) with true in E1.
    change (JS.Qltb 0.5 0.1) with false in E2.
    cbv iota in E1, E2.
    inversion E1. inversion E2. repeat split; assumption.
Qed.

Lemma heuristic_random_without_signal_witness :
  @no_political_signal Sample.host "Hello" "nothing here" "example" /\
  (exists b s',
      @ctnAnalyzeContentBasedBias Sample.host "Hello" "nothing here" "example"
        (Sample.env Sample.llm_down Sample.exa_down 0.7 0.2) Sample.state0 = (Ok b, s') /\
      (biasScore b, biasLabel b) = (JS.of_Z 65, JS.Str "Conservative")) /\
  exists b1 s1 b2 s2,
    @ctnAnalyzeContentBasedBias Sample.host "Hello" "nothing here" "example"
      (with_random (Sample.env Sample.llm_down Sample.exa_down 0 0) (fun _ => 0.9%Q))
      Sample.state0 = (Ok b1, s1) /\
    @ctnAnalyzeContentBasedBias Sample.host "Hello" "nothing here" "example"
      (with_random (Sample.env Sample.llm_down Sample.exa_down 0 0)
         (fun n => if Nat.eqb n (random_calls Sample.state0) then 0.9%Q else 0.1%Q))
      Sample.state0 = (Ok b2, s2) /\
    biasLabel b1 = JS.Str "Liberal" /\ biasLabel b2 = JS.Str "Conservative" /\
    biasScore b1 = JS.of_Z 35 /\ biasScore b2 = JS.of_Z 65.
Proof.
  assert (H : @no_political_signal Sample.host "Hello" "nothing here" "example").
  { unfold no_political_signal. vm_compute. repeat split. }
  split; [exact H|]. split.
  - exact (proj1 (@heuristic_random_without_signal Sample.host
                    "Hello" "nothing here" "example" H)
             (Sample.env Sample.llm_down Sample.exa_down 0.7 0.2) Sample.state0).
  - exact (proj2 (@heuristic_random_without_signal Sample.host
                    "Hello" "nothing here" "example" H)
             (Sample.env Sample.llm_down Sample.exa_down 0 0) Sample.state0).
Defined.

(** Counterexample to C9 as stated: nothing political is detected in the
    title "Hello" and the content "nothing here" from the source "example",
    and with a first draw of 0.1 the score is not assigned between the two
    anchors: it stays 50, labelled Neutral/Centrist, after a single draw. *)
Lemma heuristic_neutral_on_low_draw :
  @no_political_signal Sample.host "Hello" "nothing here" "example" /\
  exists b s',
    @ctnAnalyzeContentBasedBias Sample.host "Hello" "nothing here" "example"
      (Sample.env Sample.llm_down Sample.exa_down 0.1 0.9) Sample.state0 = (Ok b, s') /\
    biasScore b = JS.of_Z 50 /\ biasLabel b = JS.Str "Neutral/Centrist" /\
    biasScore b <> JS.of_Z 35 /\ biasScore b <> JS.of_Z 65 /\
    random_calls s' = 1%nat.
Proof.
  split.
  - unfold no_political_signal. vm_compute. repeat split.
  - eexists _, _. split; [vm_compute; reflexivity|].
    cbn. repeat split; discriminate.
Qed.

(** ** Traces of monadic computations *)

Lemma silent_emits {A} (m : M A) (l : list Event) : silent m -> emits m l.
Proof.
  intros H e s. destruct (H e s) as [Ht Hc].
  exists []. rewrite app_nil_r. cbn. split; [exact Ht|].
  split; [apply sublist_nil_l | lia].
Qed.

Lemma silent_ret {A} (a : A) : silent (ret a).
Proof. intros e s. split; reflexivity. Qed.

Lemma silent_throw {A} (x : exn) : silent (@throw A x).
Proof. intros e s. split; reflexivity. Qed.

Lemma silent_of_option {A} (x : exn) (o : option A) : silent (of_option x o).
Proof. destruct o; [apply silent_ret | apply silent_throw]. Qed.

Lemma silent_get_bias (k : string) : silent (ctnCache_get_bias k).
Proof.
  intros e s. unfold ctnCache_get_bias.
  destruct (nc_get (clock s) k (bias_cache s)). split; reflexivity.
Qed.

Lemma silent_set_bias (k : string) (v : BiasAnalysis) : silent (ctnCache_set_bias k v).
Proof. intros e s. split; reflexivity. Qed.

Lemma silent_get_source (k : string) : silent (ctnCache_get_source k).
Proof.
  intros e s. unfold ctnCache_get_source.
  destruct (nc_get (clock s) k (source_cache s)). split; reflexivity.
Qed.

Lemma silent_set_source (k : string) (v : JS.val) (ttl : Z) :
  silent (ctnCache_set_source k v ttl).
Proof. intros e s. split; reflexivity. Qed.

Lemma silent_first_text (blocks : list string) : silent (first_text blocks).
Proof. destruct blocks; [apply silent_throw | apply silent_ret]. Qed.

Lemma emits_log (ev : Event) : is_LlmCall ev = false -> emits (log_event ev) [ev].
Proof.
  intros H e s. exists [ev]. cbn. rewrite H. cbn.
  split; [reflexivity|]. split; [reflexivity | lia].
Qed.

Lemma emits_llm (site : CallSite) :
  emits (anthropic_messages_create site) [LlmCall site].
Proof.
  intros e s. exists [LlmCall site]. unfold anthropic_messages_create.
  destruct (llm_content (llm e (llm_calls s))); cbn;
    (split; [reflexivity|]); (split; [reflexivity | lia]).
Qed.

Lemma emits_bind {A B} (m : M A) (k : A -> M B) (l1 l2 : list Event) :
  emits m l1 -> (forall a, emits (k a) l2) -> emits (bind m k) (l1 ++ l2).
Proof.
  intros Hm Hk e s. unfold bind.
  destruct (Hm e s) as (tr1 & Ht1 & Hs1 & Hc1).
  destruct (m e s) as [[a | x] s1]; cbn in Ht1, Hc1.
  - destruct (Hk a e s1) as (tr2 & Ht2 & Hs2 & Hc2).
    exists (tr1 ++ tr2). rewrite Ht2, Ht1, Hc2, Hc1.
    rewrite List.filter_app, length_app, <- app_assoc.
    split; [reflexivity|]. split; [apply sublist_app; assumption | lia].
  - exists tr1. cbn. split; [exact Ht1|].
    split; [apply sublist_inserts_r; assumption | exact Hc1].
Qed.

Lemma emits_try_catch {A} (m : M A) (h : exn -> M A) (l1 l2 : list Event) :
  emits m l1 -> (forall x, emits (h x) l2) -> emits (try_catch m h) (l1 ++ l2).
Proof.
  intros Hm Hh e s. unfold try_catch.
  destruct (Hm e s) as (tr1 & Ht1 & Hs1 & Hc1).
  destruct (m e s) as [[a | x] s1]; cbn in Ht1, Hc1.
  - exists tr1. cbn. split; [exact Ht1|].
    split; [apply sublist_inserts_r; assumption | exact Hc1].
  - destruct (Hh x e s1) as (tr2 & Ht2 & Hs2 & Hc2).
    exists (tr1 ++ tr2). rewrite Ht2, Ht1, Hc2, Hc1.
    rewrite List.filter_app, length_app, <- app_assoc.
    split; [reflexivity|]. split; [apply sublist_app; assumption | lia].
Qed.

Lemma emits_heuristic {host : Host} (title content source : string) :
  emits (ctnAnalyzeContentBasedBias title content source)
        [Enter_ctnAnalyzeContentBasedBias].
Proof.
  intros e s.
  destruct (heuristic_run title content source e s)
    as (n & l & q & r & s' & -> & _ & _ & Ht & _ & _ & _ & _ & Hc & _).
  exists [Enter_ctnAnalyzeContentBasedBias]. cbn.
  split; [exact Ht|]. split; [reflexivity | lia].
Qed.

Section Chain.
Context {host : Host}.

Lemma emits_primary_try (content title source : string) :
  emits (ctnAnalyzePoliticalBias_try content title source) [LlmCall PrimaryBias].
Proof.
  unfold ctnAnalyzePoliticalBias_try.
  apply (emits_bind _ _ [] [LlmCall PrimaryBias]);
    [apply silent_emits, silent_get_bias|].
  intros [hit |]; [apply silent_emits, silent_ret|].
  apply (emits_bind _ _ [LlmCall PrimaryBias] []); [apply emits_llm|].
  intros response.
  apply (emits_bind _ _ [] []); [apply silent_emits, silent_first_text|].
  intros text.
  apply (emits_bind _ _ [] []); [apply silent_emits, silent_of_option|].
  intros biasAnalysis.
  apply (emits_bind _ _ [] []); [apply silent_emits, silent_of_option|].
  intros result.
  apply (emits_bind _ _ [] []); [apply silent_emits, silent_set_bias|].
  intros _. apply silent_emits, silent_ret.
Qed.

Lemma emits_source_try (source title content : string) :
  emits (ctnGetSourceBasedBiasAnalysis_try source title content)
        [LlmCall SourceReputation; LlmCall ArticleInContext].
Proof.
  unfold ctnGetSourceBasedBiasAnalysis_try.
  apply (emits_bind _ _ [] [LlmCall SourceReputation; LlmCall ArticleInContext]);
    [apply silent_emits, silent_get_source|].
  intros cached.
  apply (emits_bind _ _ [LlmCall SourceReputation] [LlmCall ArticleInContext]).
  { destruct (JS.truthy _); [apply silent_emits, silent_ret|].
    apply (emits_bind _ _ [LlmCall SourceReputation] []); [apply emits_llm|].
    intros response.
    apply (emits_bind _ _ [] []); [apply silent_emits, silent_first_text|].
    intros text.
    apply (emits_bind _ _ [] []); [apply silent_emits, silent_of_option|].
    intros parsed.
    apply (emits_bind _ _ [] []); [apply silent_emits, silent_set_source|].
    intros _. apply silent_emits, silent_ret. }
  intros sourceAnalysis.
  apply (emits_bind _ _ [] [LlmCall ArticleInContext]);
    [apply silent_emits, silent_of_option|].
  intros _.
  apply (emits_bind _ _ [] [LlmCall ArticleInContext]);
    [apply silent_emits, silent_of_option|].
  intros _.
  apply (emits_bind _ _ [LlmCall ArticleInContext] []); [apply emits_llm|].
  intros contentResponse.
  apply (emits_bind _ _ [] []); [apply silent_emits, silent_first_text|].
  intros contentText.
  apply (emits_bind _ _ [] []); [apply silent_emits, silent_of_option|].
  intros contentAnalysis.
  apply silent_emits, silent_of_option.
Qed.

Lemma emits_source (source title content : string) :
  emits (ctnGetSourceBasedBiasAnalysis source title content)
        [Enter_ctnGetSourceBasedBiasAnalysis; LlmCall SourceReputation;
         LlmCall ArticleInContext; Enter_ctnAnalyzeContentBasedBias].
Proof.
  unfold ctnGetSourceBasedBiasAnalysis.
  apply (emits_bind _ _ [Enter_ctnGetSourceBasedBiasAnalysis]
           [LlmCall SourceReputation; LlmCall ArticleInContext;
            Enter_ctnAnalyzeContentBasedBias]);
    [apply emits_log; reflexivity|].
  intros _.
  apply (emits_try_catch _ _ [LlmCall SourceReputation; LlmCall ArticleInContext]
           [Enter_ctnAnalyzeContentBasedBias]);
    [apply emits_source_try|].
  intros _. apply emits_heuristic.
Qed.

Lemma emits_pipeline (content title source : string) :
  emits (ctnAnalyzePoliticalBias content title source) chain_events.
Proof.
  unfold ctnAnalyzePoliticalBias.
  apply (emits_try_catch _ _ [LlmCall PrimaryBias]
           [Enter_ctnGetSourceBasedBiasAnalysis; LlmCall SourceReputation;
            LlmCall ArticleInContext; Enter_ctnAnalyzeContentBasedBias]);
    [apply emits_primary_try|].
  intros _. apply emits_source.
Qed.

End Chain.

(** ** Inversion of monadic runs *)

Lemma bind_Ok_inv {A B} (m : M A) (k : A -> M B) e s b s' :
  bind m k e s = (Ok b, s') ->
  exists a s1, m e s = (Ok a, s1) /\ k a e s1 = (Ok b, s').
Proof.
  unfold bind. destruct (m e s) as [[a | x] s1]; intros H.
  - exists a, s1. split; [reflexivity | exact H].
  - discriminate.
Qed.

Lemma of_option_Ok_inv {A} (x : exn) (o : option A) e s a s' :
  of_option x o e s = (Ok a, s') -> o = Some a /\ s' = s.
Proof.
  destruct o as [a0 |]; cbn; intros H; [|discriminate].
  inversion H. split; reflexivity.
Qed.

Lemma try_catch_Ok_inv {A} (m : M A) (h : exn -> M A) e s b s' :
  try_catch m h e s = (Ok b, s') ->
  m e s = (Ok b, s') \/ exists x s1, m e s = (Throw x, s1) /\ h x e s1 = (Ok b, s').
Proof.
  unfold try_catch. destruct (m e s) as [[a | x] s1]; intros H.
  - left. exact H.
  - right. exists x, s1. split; [reflexivity | exact H].
Qed.

(** ** The clamps *)

Lemma lt_of_Z (a b : Z) : JS.lt (JS.of_Z a) (JS.of_Z b) = (a <? b).
Proof.
  unfold JS.lt, JS.of_Z.
  destruct (a <? b) eqn:E.
  - apply Qltb_true. rewrite <- Zlt_Qlt. lia.
  - apply Qltb_false. rewrite <- Zle_Qle. lia.
Qed.

Lemma Math_min_Fin (a b : Q) :
  JS.Math_min (JS.Fin a) (JS.Fin b) = JS.Fin (if JS.Qltb b a then b else a).
Proof. unfold JS.Math_min. cbn. destruct (JS.Qltb b a); reflexivity. Qed.

Lemma Math_max_Fin (a b : Q) :
  JS.Math_max (JS.Fin a) (JS.Fin b) = JS.Fin (if JS.Qltb a b then b else a).
Proof. unfold JS.Math_max. cbn. destruct (JS.Qltb a b); reflexivity. Qed.

(** [Math.max(lo, Math.min(hi, x))] on a number that is not NaN. *)
Lemma clamp_num_between (lo hi : Z) (x : JS.num) :
  lo <= hi -> x <> JS.NaN ->
  between (inject_Z lo) (inject_Z hi)
    (JS.Math_max (JS.of_Z lo) (JS.Math_min (JS.of_Z hi) x)).
Proof.
  intros Hle Hn.
  assert (Hq : (inject_Z lo <= inject_Z hi)%Q) by (rewrite <- Zle_Qle; exact Hle).
  unfold JS.of_Z.
  destruct x as [x | | |]; [| | |congruence].
  - rewrite Math_min_Fin, Math_max_Fin. cbn.
    destruct (JS.Qltb x (inject_Z hi)) eqn:E1.
    + apply Qltb_true in E1.
      destruct (JS.Qltb (inject_Z lo) x) eqn:E2.
      * apply Qltb_true in E2. lra.
      * lra.
    + destruct (JS.Qltb (inject_Z lo) (inject_Z hi)) eqn:E2; lra.
  - change (JS.Math_min (JS.Fin (inject_Z hi)) JS.PosInf) with (JS.Fin (inject_Z hi)).
    rewrite Math_max_Fin. cbn.
    destruct (JS.Qltb (inject_Z lo) (inject_Z hi)) eqn:E2; lra.
  - change (JS.Math_max (JS.Fin (inject_Z lo))
              (JS.Math_min (JS.Fin (inject_Z hi)) JS.NegInf))
      with (JS.Fin (inject_Z lo)).
    cbn. lra.
Qed.


Section Clamp.
Context {host : Host}.

(** A value that coerces to a number is clamped into the interval. *)
Lemma clamp_between (lo hi : Z) (v : JS.val) :
  lo <= hi -> ToNumber v <> JS.NaN ->
  between (inject_Z lo) (inject_Z hi) (clamp lo hi v).
Proof. intros Hle Hn. apply clamp_num_between; assumption. Qed.

(** A value that does not coerce to a number passes through both
    [Math.min] and [Math.max] as NaN. *)
Lemma clamp_NaN (lo hi : Z) (v : JS.val) :
  ToNumber v = JS.NaN -> clamp lo hi v = JS.NaN.
Proof. intros H. unfold clamp. rewrite H. reflexivity. Qed.


End Clamp.

(** ** The cache *)

Lemma nc_get_miss {V} (now : Z) (k : string) (m : gmap string (Z * V)) :
  fst (nc_get now k m) = None -> snd (nc_get now k m) !! k = None.
Proof.
  unfold nc_get. destruct (m !! k) as [[t v] |] eqn:E; cbn.
  - destruct (negb (t =? 0) && (t <? now)); cbn; [|discriminate].
    intros _. apply lookup_delete_eq.
  - intros _. exact E.
Qed.

Lemma nc_get_other {V} (now : Z) (k k' : string) (m : gmap string (Z * V)) (x : Z * V) :
  snd (nc_get now k m) !! k' = Some x -> m !! k' = Some x.
Proof.
  unfold nc_get. destruct (m !! k) as [[t v] |] eqn:E; cbn; [|tauto].
  destruct (negb (t =? 0) && (t <? now)); cbn; [|tauto].
  rewrite lookup_delete. destruct (decide (k = k')); [discriminate | tauto].
Qed.

Lemma nc_get_absent {V} (now : Z) (k : string) (m : gmap string (Z * V)) :
  m !! k = None -> nc_get now k m = (None, m).
Proof. unfold nc_get. intros ->. reflexivity. Qed.



(** ** Tier 1 *)

Section Primary.
Context {host : Host}.

(** A fresh tier-1 run whose reply parses to a value with readable fields. *)
Lemma primary_fresh_run (content title source : string) (e : Env) (s : State)
  (text : string) (blocks : list string) (v : JS.val) (b : BiasAnalysis) :
  bias_lookup s (bias_cacheKey content) = None ->
  llm_content (llm e (llm_calls s)) = Some (text :: blocks) ->
  ctnParseJsonResponse text = Some v ->
  primary_result v = Some b ->
  exists s',
    ctnAnalyzePoliticalBias_try content title source e s = (Ok b, s') /\
    ctnAnalyzePoliticalBias content title source e s = (Ok b, s') /\
    trace s' = trace s ++ [LlmCall PrimaryBias].
Proof.
  intros Hmiss Hllm Hparse Hres.
  assert (Htry : exists s',
    ctnAnalyzePoliticalBias_try content title source e s = (Ok b, s') /\
    trace s' = trace s ++ [LlmCall PrimaryBias]).
  { unfold ctnAnalyzePoliticalBias_try.
    set (key := bias_cacheKey content) in *.
    unfold bias_lookup in Hmiss.
    unfold bind at 1. unfold ctnCache_get_bias.
    destruct (nc_get (clock s) key (bias_cache s)) as [r c].
    cbn in Hmiss. subst r.
    unfold bind at 1. unfold anthropic_messages_create.
    cbn [llm_calls set_bias_cache]. rewrite Hllm.
    unfold bind at 1. cbn [first_text ret].
    unfold bind at 1. rewrite Hparse. cbn [of_option ret].
    unfold bind at 1. rewrite Hres. cbn [of_option ret].
    unfold bind, ctnCache_set_bias, ret.
    eexists. split; reflexivity. }
  destruct Htry as (s' & Htry & Htr).
  exists s'. split; [exact Htry|]. split; [|exact Htr].
  unfold ctnAnalyzePoliticalBias, try_catch. rewrite Htry. reflexivity.
Qed.

(** Where a successful tier-1 attempt takes its result from. *)
Lemma primary_try_origin (content title source : string) (e : Env) (s s' : State)
  (b : BiasAnalysis) :
  ctnAnalyzePoliticalBias_try content title source e s = (Ok b, s') ->
  bias_lookup s (bias_cacheKey content) = Some b \/
  (bias_lookup s (bias_cacheKey content) = None /\
   exists text blocks v,
     llm_content (llm e (llm_calls s)) = Some (text :: blocks) /\
     ctnParseJsonResponse text = Some v /\ primary_result v = Some b).
Proof.
  unfold ctnAnalyzePoliticalBias_try, bias_lookup.
  set (key := bias_cacheKey content).
  intros H. apply bind_Ok_inv in H as (cached & s1 & Hget & H).
  unfold ctnCache_get_bias in Hget.
  destruct (nc_get (clock s) key (bias_cache s)) as [r c].
  inversion Hget; subst cached s1; clear Hget. cbn [fst].
  destruct r as [hit |].
  - left. cbn in H. inversion H. reflexivity.
  - right. split; [reflexivity|].
    apply bind_Ok_inv in H as (response & s2 & Hcall & H).
    unfold anthropic_messages_create in Hcall. cbn [llm_calls set_bias_cache] in Hcall.
    destruct (llm_content (llm e (llm_calls s))) as [bl |] eqn:El; [|discriminate].
    inversion Hcall; subst response; clear Hcall.
    apply bind_Ok_inv in H as (text & s3 & Htext & H).
    destruct bl as [| t rest]; [discriminate|]. cbn in Htext.
    inversion Htext; subst t s3; clear Htext.
    apply bind_Ok_inv in H as (v & s4 & Hv & H).
    apply of_option_Ok_inv in Hv as [Hv ->].
    apply bind_Ok_inv in H as (res & s5 & Hr & H).
    apply of_option_Ok_inv in Hr as [Hr ->].
    apply bind_Ok_inv in H as (u & s6 & _ & H).
    inversion H; subst res.
    exists text, rest, v. repeat split; assumption.
Qed.

(** The shape of what tier 1 builds from a parsed reply. *)
Lemma primary_result_shape (v : JS.val) (b : BiasAnalysis) :
  primary_result v = Some b ->
  exists score label conf,
    JS.get v "biasScore" = Some score /\
    JS.get v "biasLabel" = Some label /\
    JS.get v "confidence" = Some conf /\
    biasScore b = clamp 0 100 (JS.or score (JS.Num (JS.of_Z 50))) /\
    biasLabel b = JS.or label (JS.Str "Neutral/Centrist") /\
    confidence b = clamp 0 1 (JS.or conf (JS.Num (JS.Fin 0.5))) /\
    analysisMethod b = "CTN AI-powered primary analysis".
Proof.
  unfold primary_result. intros H.
  destruct (JS.get v "biasScore") as [score |]; [|discriminate].
  destruct (JS.get v "biasLabel") as [label |]; [|discriminate].
  destruct (JS.get v "confidence") as [conf |]; [|discriminate].
  destruct (JS.get v "reasoning") as [reason |]; [|discriminate].
  destruct (JS.get v "keyIndicators") as [ind |]; [|discriminate].
  cbn in H. inversion H; subst b; clear H.
  exists score, label, conf. repeat split.
Qed.

(** Every field of a value that is neither [undefined] nor [null] can be
    read, so tier 1 builds a result from it. *)
Lemma primary_result_defined (v : JS.val) :
  v <> JS.Undefined -> v <> JS.Null -> exists b, primary_result v = Some b.
Proof.
  intros Hu Hn. unfold primary_result.
  destruct v; try congruence; cbn; eexists; reflexivity.
Qed.

End Primary.

(** ** The fallback chain *)




Section FallbackChain.
Context {host : Host}.


Lemma get_nullish (v : JS.val) (k : string) : nullish v = true -> JS.get v k = None.
Proof. destruct v; try discriminate; reflexivity. Qed.






Local Notation "'article_step' sa" :=
  (_ <~ prop sa "biasLabel" ;;
   _ <~ prop sa "biasScore" ;;
   contentResponse <~ anthropic_messages_create ArticleInContext ;;
   contentText <~ first_text contentResponse ;;
   contentAnalysis <~ of_option SyntaxError (ctnParseJsonResponse contentText) ;;
   of_option TypeError (combined_result sa contentAnalysis))
  (at level 10, sa at level 9, only parsing).











End FallbackChain.

(** ** De-duplication by url *)

Lemma filter_unseen_sublist (seen : gset string) (l : list ExaResult) :
  sublist (filter_unseen seen l) l.
Proof.
  revert seen. induction l as [| r rest IH]; intros seen; cbn.
  - constructor.
  - destruct (decide (r_url r ∈ seen)).
    + apply sublist_cons, IH.
    + apply sublist_skip, IH.
Qed.

Lemma filter_unseen_fresh (seen : gset string) (l : list ExaResult) (r : ExaResult) :
  In r (filter_unseen seen l) -> r_url r ∉ seen.
Proof.
  revert seen. induction l as [| x rest IH]; intros seen; cbn; [tauto|].
  destruct (decide (r_url x ∈ seen)) as [Hin | Hout].
  - apply IH.
  - intros [<- | Hr]; [exact Hout|].
    apply IH in Hr. set_solver.
Qed.

Lemma filter_unseen_NoDup (seen : gset string) (l : list ExaResult) :
  NoDup (map r_url (filter_unseen seen l)).
Proof.
  revert seen. induction l as [| x rest IH]; intros seen; cbn.
  - constructor.
  - destruct (decide (r_url x ∈ seen)) as [Hin | Hout]; [apply IH|].
    cbn. apply NoDup_cons_2; [|apply IH].
    rewrite list_elem_of_In, in_map_iff. intros (r & Hu & Hr).
    apply filter_unseen_fresh in Hr. set_solver.
Qed.

Lemma filter_unseen_first (seen : gset string) (l : list ExaResult) (u : string) :
  u ∉ seen ->
  first_with_url u (filter_unseen seen l) = first_with_url u l.
Proof.
  revert seen. induction l as [| x rest IH]; intros seen Hu; cbn; [reflexivity|].
  destruct (decide (r_url x ∈ seen)) as [Hin | Hout].
  - destruct (String.eqb (r_url x) u) eqn:E.
    + apply String.eqb_eq in E. congruence.
    + apply IH, Hu.
  - cbn. destruct (String.eqb (r_url x) u) eqn:E; [reflexivity|].
    apply IH. apply String.eqb_neq in E.
    rewrite not_elem_of_union, not_elem_of_singleton. split; [congruence | exact Hu].
Qed.

(** The filter keeps, for every url, the first result that carries it, in
    the order of the merged list, and nothing twice. *)
Lemma uniqueResults_first_seen (l : list ExaResult) :
  sublist (uniqueResults l) l /\
  NoDup (map r_url (uniqueResults l)) /\
  forall u, first_with_url u (uniqueResults l) = first_with_url u l.
Proof.
  unfold uniqueResults. split; [apply filter_unseen_sublist|].
  split; [apply filter_unseen_NoDup|].
  intros u. apply filter_unseen_first. set_solver.
Qed.

Lemma slice0_sublist {A} (limit : JS.num) (l : list A) : sublist (slice0 limit l) l.
Proof. unfold slice0. apply sublist_take. Qed.

Lemma Promise_all_merged (ps : list ExaReply) (t : Z)
  (rs : list (option (list ExaResult))) :
  Promise_all ps = (t, Some rs) ->
  concat (map (fun searchResult => default [] searchResult) rs) =
  concat (map (fun p => match exa_response p with
                        | Some (Some results) => results
                        | _ => []
                        end) ps).
Proof.
  unfold Promise_all. destruct (rejection_times ps); [|discriminate].
  intros [= _ Hm].
  apply mapM_Some_1 in Hm.
  induction Hm as [| p y ps' rs' Hp _ IH]; [reflexivity|].
  cbn. rewrite IH, Hp. destruct y; reflexivity.
Qed.


(** ** The article search *)

Section Search.
Context {host : Host}.

(** The keys of the three uses of the cache never coincide, which is what
    lets the store be kept per prefix. *)
Lemma cache_keys_disjoint (query sources : string) (limit : JS.num)
  (content source : string) :
  news_cacheKey query sources limit <> bias_cacheKey content /\
  news_cacheKey query sources limit <> source_cacheKey source /\
  bias_cacheKey content <> source_cacheKey source.
Proof.
  unfold news_cacheKey, bias_cacheKey, source_cacheKey.
  repeat split; intros H; cbn in H; discriminate.
Qed.

Lemma set_news_cache_same (s : State) : set_news_cache (news_cache s) s = s.
Proof. destruct s; reflexivity. Qed.

(** A lookup that answers is returned as it is; nothing else happens. *)
Lemma search_hit (query sources : string) (limit : JS.num) (e : Env) (s : State)
  (nd : NewsData) :
  news_lookup s (news_cacheKey query sources limit) = Some nd ->
  ctnSearchNewsArticles query sources limit e s = (Ok nd, s).
Proof.
  unfold news_lookup, ctnSearchNewsArticles, try_catch, ctnSearchNewsArticles_try.
  set (key := news_cacheKey query sources limit).
  unfold bind at 1. unfold ctnCache_get_news.
  unfold nc_get. destruct (news_cache s !! key) as [[t v] |] eqn:E; cbn [fst];
    [|discriminate].
  destruct (negb (t =? 0) && (t <? clock s)); cbn [fst]; [discriminate|].
  intros H. inversion H; subst v. cbn. rewrite set_news_cache_same. reflexivity.
Qed.

(** A lookup that does not answer is followed by the four searches. *)
Lemma search_miss (query sources : string) (limit : JS.num) (e : Env) (s : State) :
  news_lookup s (news_cacheKey query sources limit) = None ->
  let key := news_cacheKey query sources limit in
  let c := snd (nc_get (clock s) key (news_cache s)) in
  let r := ctnSearchNewsArticles_try query sources limit e s in
  exa_calls (snd r) = (exa_calls s + 4)%nat /\
  llm_calls (snd r) = llm_calls s /\
  (search_fails e s = true ->
     is_throw r = true /\ news_cache (snd r) = c) /\
  (search_fails e s = false ->
     exists nd,
       r = (Ok nd, snd r) /\
       articles nd =
         map (toArticle (clock (snd r)))
             (slice0 limit (uniqueResults (merged_results e s))) /\
       news_cache (snd r) = <[key := (clock (snd r) + stdTTL * 1000, nd)]> c).
Proof.
  intros Hmiss key c r.
  assert (Er : ctnSearchNewsArticles_try query sources limit e s = r) by reflexivity.
  destruct r as [o s'].
  unfold ctnSearchNewsArticles_try in Er. fold key in Er.
  unfold news_lookup in Hmiss. fold key in Hmiss.
  unfold bind at 1 in Er. unfold ctnCache_get_news in Er.
  unfold c. destruct (nc_get (clock s) key (news_cache s)) as [o' c'].
  cbn [fst snd] in *. subst o'.
  unfold bind at 1 in Er. unfold exa_searchAndContents at 1 in Er.
  unfold bind at 1 in Er. unfold exa_searchAndContents at 1 in Er.
  unfold bind at 1 in Er. unfold exa_searchAndContents at 1 in Er.
  unfold bind at 1 in Er. unfold exa_searchAndContents at 1 in Er.
  cbn [exa_calls set_news_cache clock news_cache bias_cache source_cache llm_calls
       random_calls trace] in Er.
  unfold search_fails, pending_searches.
  unfold bind at 1 in Er. unfold race_with_timeout in Er.
  cbn [exa_calls set_news_cache clock news_cache bias_cache source_cache llm_calls
       random_calls trace set_clock] in Er.
  destruct (Promise_all _) as [t res] eqn:EP.
  destruct (t <? 10000) eqn:Et; cbn [negb orb].
  - destruct res as [responses |].
    + unfold bind, Date_now, ctnCache_set_news, ret in Er.
      cbn [exa_calls set_news_cache clock news_cache bias_cache source_cache llm_calls
           random_calls trace set_clock snd fst] in Er.
      inversion Er; subst o s'; clear Er.
      cbn [exa_calls set_news_cache clock news_cache bias_cache source_cache llm_calls
           random_calls trace set_clock snd fst].
      split; [lia|]. split; [reflexivity|]. split; [discriminate|].
      intros _. eexists. split; [reflexivity|].
      cbn [articles]. split; [|reflexivity].
      unfold merged_results, pending_searches.
      rewrite (Promise_all_merged _ _ _ EP). reflexivity.
    + inversion Er; subst o s'; clear Er. cbn.
      split; [lia|]. split; [reflexivity|]. split; [|discriminate].
      intros _. split; reflexivity.
  - inversion Er; subst o s'; clear Er. cbn.
    split; [lia|]. split; [reflexivity|]. split; [|discriminate].
    intros _. split; reflexivity.
Qed.

(** The catch block never returns: it stops at the read of [cacheKey]. *)
Lemma search_catch_throws (error : exn) (e : Env) (s : State) :
  ctnSearchNewsArticles_catch error e s = (Throw ReferenceError, s).
Proof. reflexivity. Qed.

End Search.

(** ** Invariants of the cache *)

Lemma keeps_ret {A B} (proj : State -> B) (a : A) : keeps proj (ret a).
Proof. intros e s. reflexivity. Qed.

Lemma keeps_throw {A B} (proj : State -> B) (x : exn) : keeps proj (@throw A x).
Proof. intros e s. reflexivity. Qed.

Lemma keeps_of_option {A B} (proj : State -> B) (x : exn) (o : option A) :
  keeps proj (of_option x o).
Proof. destruct o; [apply keeps_ret | apply keeps_throw]. Qed.

Lemma keeps_first_text {B} (proj : State -> B) (blocks : list string) :
  keeps proj (first_text blocks).
Proof. destruct blocks; [apply keeps_throw | apply keeps_ret]. Qed.

Lemma keeps_bind {A B C} (proj : State -> C) (m : M A) (k : A -> M B) :
  keeps proj m -> (forall a, keeps proj (k a)) -> keeps proj (bind m k).
Proof.
  intros Hm Hk e s. unfold bind. specialize (Hm e s).
  destruct (m e s) as [[a | x] s1]; cbn in *.
  - rewrite Hk. exact Hm.
  - exact Hm.
Qed.

Lemma keeps_try_catch {A C} (proj : State -> C) (m : M A) (h : exn -> M A) :
  keeps proj m -> (forall x, keeps proj (h x)) -> keeps proj (try_catch m h).
Proof.
  intros Hm Hh e s. unfold try_catch. specialize (Hm e s).
  destruct (m e s) as [[a | x] s1]; cbn in *.
  - exact Hm.
  - rewrite Hh. exact Hm.
Qed.

Lemma preserves_bind {A B} (I : State -> Prop) (m : M A) (k : A -> M B) :
  preserves I m -> (forall a, preserves I (k a)) -> preserves I (bind m k).
Proof.
  intros Hm Hk e s Hs. unfold bind. specialize (Hm e s Hs).
  destruct (m e s) as [[a | x] s1]; cbn in *.
  - apply Hk, Hm.
  - exact Hm.
Qed.

(** After [of_option] the continuation runs on the content of the option. *)
Lemma preserves_bind_of_option {A B} (I : State -> Prop) (x : exn) (o : option A)
  (k : A -> M B) :
  (forall a, o = Some a -> preserves I (k a)) -> preserves I (bind (of_option x o) k).
Proof.
  intros Hk e s Hs. destruct o as [a |]; cbn.
  - apply (Hk a eq_refl), Hs.
  - exact Hs.
Qed.

Lemma preserves_try_catch {A} (I : State -> Prop) (m : M A) (h : exn -> M A) :
  preserves I m -> (forall x, preserves I (h x)) -> preserves I (try_catch m h).
Proof.
  intros Hm Hh e s Hs. unfold try_catch. specialize (Hm e s Hs).
  destruct (m e s) as [[a | x] s1]; cbn in *.
  - exact Hm.
  - apply Hh, Hm.
Qed.

Lemma keeps_heuristic_news {host : Host} (title content source : string) :
  keeps news_cache (ctnAnalyzeContentBasedBias title content source).
Proof.
  intros e s.
  destruct (heuristic_run title content source e s)
    as (n & l & q & r & s' & -> & _ & _ & _ & _ & H & _).
  exact H.
Qed.

Lemma keeps_heuristic_bias {host : Host} (title content source : string) :
  keeps bias_cache (ctnAnalyzeContentBasedBias title content source).
Proof.
  intros e s.
  destruct (heuristic_run title content source e s)
    as (n & l & q & r & s' & -> & _ & _ & _ & _ & _ & H & _).
  exact H.
Qed.

Ltac keeps_primitive :=
  let e := fresh "e" in
  let s := fresh "s" in
  intros e s; cbv beta zeta delta
    [log_event Date_now Math_random ctnCache_get_news ctnCache_set_news
     ctnCache_get_bias ctnCache_set_bias ctnCache_get_source ctnCache_set_source
     anthropic_messages_create exa_searchAndContents race_with_timeout];
  repeat case_match; reflexivity.

Section CacheInvariants.
Context {host : Host}.

Lemma source_try_keeps_news (source title content : string) :
  keeps news_cache (ctnGetSourceBasedBiasAnalysis_try source title content).
Proof.
  unfold ctnGetSourceBasedBiasAnalysis_try.
  repeat first
    [ apply keeps_bind; [|intros ?]
    | apply keeps_of_option | apply keeps_first_text | apply keeps_ret
    | match goal with |- keeps _ (if ?c then _ else _) => destruct c end
    | keeps_primitive ].
Qed.

Lemma source_try_keeps_bias (source title content : string) :
  keeps bias_cache (ctnGetSourceBasedBiasAnalysis_try source title content).
Proof.
  unfold ctnGetSourceBasedBiasAnalysis_try.
  repeat first
    [ apply keeps_bind; [|intros ?]
    | apply keeps_of_option | apply keeps_first_text | apply keeps_ret
    | match goal with |- keeps _ (if ?c then _ else _) => destruct c end
    | keeps_primitive ].
Qed.

Lemma primary_try_keeps_news (content title source : string) :
  keeps news_cache (ctnAnalyzePoliticalBias_try content title source).
Proof.
  unfold ctnAnalyzePoliticalBias_try.
  repeat first
    [ apply keeps_bind; [|intros ?]
    | apply keeps_of_option | apply keeps_first_text | apply keeps_ret
    | match goal with |- keeps _ (match ?c with _ => _ end) => destruct c end
    | keeps_primitive ].
Qed.

Lemma pipeline_keeps_news (content title source : string) :
  keeps news_cache (ctnAnalyzePoliticalBias content title source).
Proof.
  unfold ctnAnalyzePoliticalBias, ctnGetSourceBasedBiasAnalysis.
  apply keeps_try_catch; [apply primary_try_keeps_news|]. intros _.
  apply keeps_bind; [keeps_primitive|]. intros _.
  apply keeps_try_catch; [apply source_try_keeps_news|]. intros _.
  apply keeps_heuristic_news.
Qed.

Lemma search_keeps_bias (query sources : string) (limit : JS.num) :
  keeps bias_cache (ctnSearchNewsArticles query sources limit).
Proof.
  unfold ctnSearchNewsArticles, ctnSearchNewsArticles_try, ctnSearchNewsArticles_catch,
    unbound_identifier.
  apply keeps_try_catch.
  - repeat first
      [ apply keeps_bind; [|intros ?]
      | apply keeps_ret
      | match goal with |- keeps _ (match ?c with _ => _ end) => destruct c end
      | keeps_primitive ].
  - intros _.
    repeat first
      [ apply keeps_bind; [|intros ?] | apply keeps_ret | apply keeps_throw
      | keeps_primitive ].
Qed.

Lemma keeps_preserves_news {A} (m : M A) :
  keeps news_cache m -> preserves news_cache_unique m.
Proof.
  intros H e s Hs k t nd Hk. rewrite H in Hk. exact (Hs k t nd Hk).
Qed.

Lemma keeps_preserves_bias {A} (m : M A) :
  keeps bias_cache m -> preserves bias_cache_primary m.
Proof.
  intros H e s Hs k t b Hk. rewrite H in Hk. exact (Hs k t b Hk).
Qed.

(** What the search stores has distinct urls, whatever the provider sent. *)
Lemma found_unique (now : Z) (limit : JS.num) (allResults : list ExaResult) :
  NoDup (map a_url (map (toArticle now) (slice0 limit (uniqueResults allResults)))).
Proof.
  rewrite map_map. cbn [toArticle a_url].
  apply (sublist_NoDup _ (map r_url (uniqueResults allResults))).
  - apply uniqueResults_first_seen.
  - apply (fmap_sublist r_url (slice0 limit (uniqueResults allResults))
             (uniqueResults allResults)), slice0_sublist.
Qed.

Lemma get_news_preserves (k : string) :
  preserves news_cache_unique (ctnCache_get_news k).
Proof.
  intros e s Hs k' t nd Hk. unfold ctnCache_get_news in Hk.
  pose proof (nc_get_other (clock s) k k' (news_cache s) (t, nd)) as Hother.
  destruct (nc_get (clock s) k (news_cache s)) as [o c]. cbn in Hk, Hother.
  exact (Hs k' t nd (Hother Hk)).
Qed.

Lemma set_news_preserves (k : string) (nd : NewsData) :
  NoDup (map a_url (articles nd)) ->
  preserves news_cache_unique (ctnCache_set_news k nd).
Proof.
  intros Hnd e s Hs k' t v Hk. cbn in Hk. unfold nc_set in Hk.
  rewrite lookup_insert in Hk. destruct (decide (k = k')).
  - inversion Hk; subst v. exact Hnd.
  - exact (Hs k' t v Hk).
Qed.

Lemma search_preserves_news (query sources : string) (limit : JS.num) :
  preserves news_cache_unique (ctnSearchNewsArticles query sources limit).
Proof.
  unfold ctnSearchNewsArticles, ctnSearchNewsArticles_try.
  apply preserves_try_catch.
  - apply preserves_bind; [apply get_news_preserves|].
    intros [hit |]; [apply keeps_preserves_news, keeps_ret|].
    apply preserves_bind; [apply keeps_preserves_news; keeps_primitive|]. intros p1.
    apply preserves_bind; [apply keeps_preserves_news; keeps_primitive|]. intros p2.
    apply preserves_bind; [apply keeps_preserves_news; keeps_primitive|]. intros p3.
    apply preserves_bind; [apply keeps_preserves_news; keeps_primitive|]. intros p4.
    apply preserves_bind; [apply keeps_preserves_news; keeps_primitive|].
    intros searchResults.
    apply preserves_bind; [apply keeps_preserves_news; keeps_primitive|]. intros now.
    apply preserves_bind; [|intros _; apply keeps_preserves_news, keeps_ret].
    apply set_news_preserves. cbn [articles]. apply found_unique.
  - intros x e s Hs. rewrite search_catch_throws. exact Hs.
Qed.

Lemma get_bias_preserves (k : string) :
  preserves bias_cache_primary (ctnCache_get_bias k).
Proof.
  intros e s Hs k' t b Hk. unfold ctnCache_get_bias in Hk.
  pose proof (nc_get_other (clock s) k k' (bias_cache s) (t, b)) as Hother.
  destruct (nc_get (clock s) k (bias_cache s)) as [o c]. cbn in Hk, Hother.
  exact (Hs k' t b (Hother Hk)).
Qed.

Lemma primary_try_preserves_bias (content title source : string) :
  preserves bias_cache_primary (ctnAnalyzePoliticalBias_try content title source).
Proof.
  unfold ctnAnalyzePoliticalBias_try.
  apply preserves_bind; [apply get_bias_preserves|].
  intros [hit |]; [apply keeps_preserves_bias, keeps_ret|].
  apply preserves_bind; [apply keeps_preserves_bias; keeps_primitive|]. intros response.
  apply preserves_bind; [apply keeps_preserves_bias, keeps_first_text|]. intros text.
  apply preserves_bind; [apply keeps_preserves_bias, keeps_of_option|]. intros v.
  apply preserves_bind_of_option. intros result Hres.
  apply preserves_bind; [|intros _; apply keeps_preserves_bias, keeps_ret].
  intros e s Hs k' t b Hk. cbn in Hk. unfold nc_set in Hk.
  rewrite lookup_insert in Hk. destruct (decide (bias_cacheKey content = k')).
  - inversion Hk; subst b. exists v. exact Hres.
  - exact (Hs k' t b Hk).
Qed.

Lemma pipeline_preserves_bias (content title source : string) :
  preserves bias_cache_primary (ctnAnalyzePoliticalBias content title source).
Proof.
  unfold ctnAnalyzePoliticalBias, ctnGetSourceBasedBiasAnalysis.
  apply preserves_try_catch; [apply primary_try_preserves_bias|]. intros _.
  apply keeps_preserves_bias.
  apply keeps_bind; [keeps_primitive|]. intros _.
  apply keeps_try_catch; [apply source_try_keeps_bias|]. intros _.
  apply keeps_heuristic_bias.
Qed.

(** In every state the service can reach, cached search results have
    distinct urls and cached classifications are tier-1 results. *)
Lemma reachable_cache_ok (s : State) :
  reachable s -> news_cache_unique s /\ bias_cache_primary s.
Proof.
  induction 1 as [s Hn Hb Hs | query sources limit e s _ [IHn IHb]
                 | content title source e s _ [IHn IHb] | t s _ [IHn IHb]].
  - split.
    + intros k t nd Hk. rewrite Hn, lookup_empty in Hk. discriminate.
    + intros k t b Hk. rewrite Hb, lookup_empty in Hk. discriminate.
  - split.
    + apply search_preserves_news, IHn.
    + apply (keeps_preserves_bias _ (search_keeps_bias query sources limit)), IHb.
  - split.
    + apply (keeps_preserves_news _ (pipeline_keeps_news content title source)), IHn.
    + apply pipeline_preserves_bias, IHb.
  - split; [exact IHn | exact IHb].
Qed.





Lemma reachable_in_reachable (e : Env) (s : State) : reachable_in e s -> reachable s.
Proof.
  induction 1 as [s Hn Hb Hs | query sources limit s _ IH
                 | content title source s _ IH | t s _ IH].
  - apply reach_start; assumption.
  - apply reach_search, IH.
  - apply reach_classify, IH.
  - apply reach_wait, IH.
Qed.

End CacheInvariants.

(** ** Scores, confidences and labels of the three tiers *)

Section Tiers.
Context {host : Host}.

Lemma combined_result_shape (sa ca : JS.val) (b : BiasAnalysis) :
  combined_result sa ca = Some b ->
  exists s1 s2 l1 l2 c1 c2,
    JS.get ca "finalBiasScore" = Some s1 /\ JS.get sa "biasScore" = Some s2 /\
    JS.get ca "finalBiasLabel" = Some l1 /\ JS.get sa "biasLabel" = Some l2 /\
    JS.get ca "confidence" = Some c1 /\ JS.get sa "confidence" = Some c2 /\
    biasScore b = clamp 0 100 (JS.or (JS.or s1 s2) (JS.Num (JS.of_Z 50))) /\
    biasLabel b = JS.or (JS.or l1 l2) (JS.Str "Neutral/Centrist") /\
    confidence b = clamp 0 1 (JS.or (JS.or c1 c2) (JS.Num (JS.Fin 0.5))).
Proof.
  unfold combined_result. intros H.
  destruct (JS.get ca "finalBiasScore") as [s1 |]; [|discriminate].
  destruct (JS.get sa "biasScore") as [s2 |]; [|discriminate].
  destruct (JS.get ca "finalBiasLabel") as [l1 |]; [|discriminate].
  destruct (JS.get sa "biasLabel") as [l2 |]; [|discriminate].
  destruct (JS.get ca "confidence") as [c1 |]; [|discriminate].
  destruct (JS.get sa "confidence") as [c2 |]; [|discriminate].
  destruct (JS.get sa "reasoning") as [r1 |]; [|discriminate].
  destruct (JS.get ca "reasoning") as [r2 |]; [|discriminate].
  destruct (JS.get sa "keyIndicators") as [k1 |]; [|discriminate].
  cbn in H.
  destruct (JS.spread (JS.or k1 (JS.Arr []))) as [i1 |]; [|discriminate].
  destruct (JS.get ca "keyIndicators") as [k2 |]; [|discriminate].
  cbn in H.
  destruct (JS.spread (JS.or k2 (JS.Arr []))) as [i2 |]; [|discriminate].
  destruct (JS.get sa "sourceReliability") as [rel |]; [|discriminate].
  cbn in H. inversion H; subst b; clear H.
  exists s1, s2, l1, l2, c1, c2. repeat split.
Qed.

Lemma source_try_origin (source title content : string) (e : Env) (s s' : State)
  (b : BiasAnalysis) :
  ctnGetSourceBasedBiasAnalysis_try source title content e s = (Ok b, s') ->
  exists sa ca, combined_result sa ca = Some b.
Proof.
  unfold ctnGetSourceBasedBiasAnalysis_try. intros H.
  apply bind_Ok_inv in H as (cached & s1 & _ & H).
  apply bind_Ok_inv in H as (sa & s2 & _ & H).
  apply bind_Ok_inv in H as (x1 & s3 & _ & H).
  apply bind_Ok_inv in H as (x2 & s4 & _ & H).
  apply bind_Ok_inv in H as (resp & s5 & _ & H).
  apply bind_Ok_inv in H as (txt & s6 & _ & H).
  apply bind_Ok_inv in H as (ca & s7 & _ & H).
  apply of_option_Ok_inv in H as [H _].
  exists sa, ca. exact H.
Qed.

(** Where every result of the pipeline comes from. *)
Lemma pipeline_origin (content title source : string) (e : Env) (s s' : State)
  (b : BiasAnalysis) :
  ctnAnalyzePoliticalBias content title source e s = (Ok b, s') ->
  bias_lookup s (bias_cacheKey content) = Some b \/
  (exists v, primary_result v = Some b) \/
  (exists sa ca, combined_result sa ca = Some b) \/
  (exists s0 s0', ctnAnalyzeContentBasedBias title content source e s0 = (Ok b, s0')).
Proof.
  unfold ctnAnalyzePoliticalBias. intros H.
  apply try_catch_Ok_inv in H as [H | (x & s1 & _ & H)].
  - apply primary_try_origin in H as [H | (_ & text & blocks & v & _ & _ & H)].
    + left. exact H.
    + right. left. exists v. exact H.
  - right. right.
    unfold ctnGetSourceBasedBiasAnalysis in H.
    apply bind_Ok_inv in H as (u & s2 & _ & H).
    apply try_catch_Ok_inv in H as [H | (y & s3 & _ & H)].
    + left. eapply source_try_origin. exact H.
    + right. exists s3, s'. exact H.
Qed.

(** C1, at the failing input.  When the reply of the tier-1 model parses and
    its biasScore is a truthy value that does not coerce to a number (a word,
    an object), the clamp lets NaN through: the pipeline returns a tier-1
    result whose biasScore is not between 0 and 100. *)
Theorem non_numeric_score_escapes_clamp
  (content title source : string) (e : Env) (s : State)
  (text : string) (blocks : list string) (v score : JS.val) :
  bias_lookup s (bias_cacheKey content) = None ->
  llm_content (llm e (llm_calls s)) = Some (text :: blocks) ->
  ctnParseJsonResponse text = Some v ->
  JS.get v "biasScore" = Some score ->
  JS.truthy score = true ->
  ToNumber score = JS.NaN ->
  exists b s',
    ctnAnalyzePoliticalBias content title source e s = (Ok b, s') /\
    analysisMethod b = "CTN AI-powered primary analysis" /\
    biasScore b = JS.NaN /\
    ~ between 0 100 (biasScore b).
Proof.
  intros Hmiss Hllm Hparse Hget Htruthy Hnan.
  destruct (primary_result_defined v) as [b Hb].
  { intros ->. discriminate. }
  { intros ->. discriminate. }
  destruct (primary_fresh_run content title source e s text blocks v b
              Hmiss Hllm Hparse Hb) as (s' & _ & Hrun & _).
  destruct (primary_result_shape v b Hb)
    as (score' & label & conf & Hs & _ & _ & Hscore & _ & _ & Hm).
  assert (score' = score) by congruence. subst score'.
  assert (Hn : biasScore b = JS.NaN).
  { rewrite Hscore. unfold JS.or. rewrite Htruthy. apply clamp_NaN, Hnan. }
  exists b, s'. split; [exact Hrun|]. split; [exact Hm|]. split; [exact Hn|].
  rewrite Hn. cbn. tauto.
Qed.

(** The range does hold for tier 1 when the (defaulted) fields coerce to
    numbers, and always for the keyword heuristic. *)
Lemma primary_in_range_when_numeric (v score conf : JS.val) (b : BiasAnalysis) :
  primary_result v = Some b ->
  JS.get v "biasScore" = Some score ->
  JS.get v "confidence" = Some conf ->
  ToNumber (JS.or score (JS.Num (JS.of_Z 50))) <> JS.NaN ->
  ToNumber (JS.or conf (JS.Num (JS.Fin 0.5))) <> JS.NaN ->
  between 0 100 (biasScore b) /\ between 0 1 (confidence b).
Proof.
  intros Hb Hs Hc Hn1 Hn2.
  destruct (primary_result_shape v b Hb)
    as (score' & label & conf' & Hs' & _ & Hc' & -> & _ & -> & _).
  assert (score' = score) by congruence.
  assert (conf' = conf) by congruence. subst.
  split.
  - apply (clamp_between 0 100); [lia | exact Hn1].
  - apply (clamp_between 0 1); [lia | exact Hn2].
Qed.

Lemma combined_in_range_when_numeric (sa ca s1 s2 c1 c2 : JS.val) (b : BiasAnalysis) :
  combined_result sa ca = Some b ->
  JS.get ca "finalBiasScore" = Some s1 -> JS.get sa "biasScore" = Some s2 ->
  JS.get ca "confidence" = Some c1 -> JS.get sa "confidence" = Some c2 ->
  ToNumber (JS.or (JS.or s1 s2) (JS.Num (JS.of_Z 50))) <> JS.NaN ->
  ToNumber (JS.or (JS.or c1 c2) (JS.Num (JS.Fin 0.5))) <> JS.NaN ->
  between 0 100 (biasScore b) /\ between 0 1 (confidence b).
Proof.
  intros Hb H1 H2 H3 H4 Hn1 Hn2.
  destruct (combined_result_shape sa ca b Hb)
    as (s1' & s2' & l1 & l2 & c1' & c2' & E1 & E2 & _ & _ & E3 & E4 & -> & _ & ->).
  assert (s1' = s1) by congruence. assert (s2' = s2) by congruence.
  assert (c1' = c1) by congruence. assert (c2' = c2) by congruence. subst.
  split.
  - apply (clamp_between 0 100); [lia | exact Hn1].
  - apply (clamp_between 0 1); [lia | exact Hn2].
Qed.

Lemma heuristic_in_range (title content source : string) (e : Env) (s s' : State)
  (b : BiasAnalysis) :
  ctnAnalyzeContentBasedBias title content source e s = (Ok b, s') ->
  between 0 100 (biasScore b) /\ between 0 1 (confidence b).
Proof.
  intros H.
  destruct (heuristic_run title content source e s)
    as (n & l & q & r & s0 & Hrun & Hb & Hq & _).
  rewrite Hrun in H. inversion H; subst b; clear H. cbn.
  assert (15 <= n <= 85) by (unfold heuristic_bucket in Hb; lia).
  split; [|lra].
  split.
  - change 0%Q with (inject_Z 0). rewrite <- Zle_Qle. lia.
  - change 100%Q with (inject_Z 100). rewrite <- Zle_Qle. lia.
Qed.





End Tiers.

(** ** Properties of the article search *)

Section SearchClaims.
Context {host : Host}.

(** C5.  In every state the service can reach, the articles of a successful
    search carry pairwise distinct urls; a search that was not served from
    the cache returns the first [limit] results of the merged provider
    answers after the filter, which keeps for every url the first result
    carrying it, in merge order. *)
Theorem search_results_unique_urls
  (query sources : string) (limit : JS.num) (e : Env) (s s' : State) (nd : NewsData) :
  reachable s ->
  ctnSearchNewsArticles query sources limit e s = (Ok nd, s') ->
  NoDup (map a_url (articles nd)) /\
  (news_lookup s (news_cacheKey query sources limit) = None ->
     articles nd =
       map (toArticle (clock s')) (slice0 limit (uniqueResults (merged_results e s))) /\
     sublist (uniqueResults (merged_results e s)) (merged_results e s) /\
     NoDup (map r_url (uniqueResults (merged_results e s))) /\
     forall u, first_with_url u (uniqueResults (merged_results e s))
               = first_with_url u (merged_results e s)).
Proof.
  intros Hreach Hrun.
  destruct (reachable_cache_ok s Hreach) as [Hinv _].
  set (key := news_cacheKey query sources limit) in *.
  destruct (uniqueResults_first_seen (merged_results e s)) as (Hsub & Hnd & Hfirst).
  destruct (news_lookup s key) as [hit |] eqn:Hlook.
  - (* served from the cache *)
    rewrite (search_hit query sources limit e s hit Hlook) in Hrun.
    inversion Hrun; subst hit s'; clear Hrun.
    split; [|discriminate].
    unfold news_lookup, nc_get in Hlook.
    destruct (news_cache s !! key) as [[t v] |] eqn:E; cbn in Hlook; [|discriminate].
    destruct (negb (t =? 0) && (t <? clock s)); cbn in Hlook; [discriminate|].
    inversion Hlook; subst v. exact (Hinv key t nd E).
  - (* searched *)
    destruct (search_miss query sources limit e s Hlook) as (_ & _ & Hfail & Hok).
    fold key in Hfail, Hok.
    unfold ctnSearchNewsArticles, try_catch in Hrun.
    destruct (ctnSearchNewsArticles_try query sources limit e s) as [[a | x] s1] eqn:Etry.
    + inversion Hrun; subst a s1; clear Hrun.
      destruct (search_fails e s) eqn:Ef.
      { destruct (Hfail eq_refl) as [Ht _]. discriminate. }
      destruct (Hok eq_refl) as (nd' & Heq & Harts & _).
      cbn [snd] in *. inversion Heq; subst nd'; clear Heq.
      split.
      * rewrite Harts. apply found_unique.
      * intros _. repeat split; assumption.
    + rewrite search_catch_throws in Hrun. discriminate.
Qed.

(** C6, at the failing input.  When the lookup misses and the provider
    search fails (a rejection, or no answer within 10 s), the search does not
    return the five fallback articles: its catch block reads [cacheKey],
    which is declared inside the try block, and raises a ReferenceError; the
    route answers 500. *)
Theorem search_failure_raises_instead_of_fallback
  (processArticles : list Article -> M (list ProcessedArticle))
  (req : Request) (e : Env) (s : State) :
  JS.gt (ToNumber (limit_value req)) (JS.of_Z 20) = false ->
  news_lookup s (news_cacheKey (query_value req) "" (parsed_limit req)) = None ->
  search_fails e s = true ->
  exists s',
    ctnSearchNewsArticles (query_value req) "" (parsed_limit req) e s
      = (Throw ReferenceError, s') /\
    search_route processArticles req e s
      = (Ok {| status := 500;
               body := ErrorBody "Failed to search news articles" (Some ReferenceError) |},
         s') /\
    llm_calls s' = llm_calls s.
Proof.
  intros Hlimit Hlook Hfail.
  destruct (search_miss (query_value req) "" (parsed_limit req) e s Hlook)
    as (_ & Hllm & Hf & _).
  destruct (Hf Hfail) as [Ht _].
  assert (Hrun : ctnSearchNewsArticles (query_value req) "" (parsed_limit req) e s
                 = (Throw ReferenceError,
                    snd (ctnSearchNewsArticles_try (query_value req) ""
                           (parsed_limit req) e s))).
  { unfold ctnSearchNewsArticles, try_catch.
    destruct (ctnSearchNewsArticles_try (query_value req) "" (parsed_limit req) e s)
      as [[a | x] s1]; [discriminate|].
    apply search_catch_throws. }
  eexists. split; [exact Hrun|]. split; [|exact Hllm].
  unfold search_route, try_catch at 1. rewrite Hlimit.
  unfold bind. rewrite Hrun. reflexivity.
Qed.

(** C7, at the failing input.  When the first of two identical calls misses
    the cache and its provider search fails, it raises the ReferenceError and
    caches nothing: the second call, however soon after, searches again, so
    the two calls issue eight provider searches instead of four. *)
Theorem failed_search_is_not_cached
  (query sources : string) (limit : JS.num) (e : Env) (s : State) (dt : Z) :
  news_lookup s (news_cacheKey query sources limit) = None ->
  search_fails e s = true ->
  let r1 := ctnSearchNewsArticles query sources limit e s in
  let r2 := ctnSearchNewsArticles query sources limit e
              (set_clock (clock (snd r1) + dt) (snd r1)) in
  fst r1 = Throw ReferenceError /\
  exa_calls (snd r1) = (exa_calls s + 4)%nat /\
  exa_calls (snd r2) = (exa_calls s + 8)%nat.
Proof.
  intros Hlook Hfail r1 r2.
  set (key := news_cacheKey query sources limit) in *.
  destruct (search_miss query sources limit e s Hlook) as (Hexa & _ & Hf & _).
  destruct (Hf Hfail) as [Ht Hcache]. fold key in Hcache.
  assert (Hsnd : forall e0 s0,
    snd (ctnSearchNewsArticles query sources limit e0 s0)
    = snd (ctnSearchNewsArticles_try query sources limit e0 s0)).
  { intros e0 s0. unfold ctnSearchNewsArticles, try_catch.
    destruct (ctnSearchNewsArticles_try query sources limit e0 s0) as [[a | x] s1];
      reflexivity. }
  assert (H1 : fst r1 = Throw ReferenceError).
  { unfold r1, ctnSearchNewsArticles, try_catch.
    destruct (ctnSearchNewsArticles_try query sources limit e s) as [[a | x] s1];
      [discriminate | reflexivity]. }
  assert (H2 : exa_calls (snd r1) = (exa_calls s + 4)%nat).
  { unfold r1. rewrite Hsnd. exact Hexa. }
  split; [exact H1|]. split; [exact H2|].
  set (s1 := set_clock (clock (snd r1) + dt) (snd r1)) in *.
  assert (Hlook2 : news_lookup s1 key = None).
  { unfold news_lookup, s1. cbn [set_clock clock news_cache].
    unfold r1. rewrite Hsnd, Hcache.
    rewrite nc_get_absent; [reflexivity|].
    apply nc_get_miss. exact Hlook. }
  destruct (search_miss query sources limit e s1 Hlook2) as (Hexa2 & _).
  unfold r2. rewrite Hsnd, Hexa2. unfold s1. cbn [set_clock exa_calls].
  rewrite H2. lia.
Qed.

(** What the cache does achieve: after a search that succeeded, the same
    call within the 30 minutes of the entry is answered from the cache with
    the same articles, and the provider is not asked again. *)
Lemma successful_search_is_cached
  (query sources : string) (limit : JS.num) (e e' : Env) (s s1 : State)
  (nd : NewsData) (dt : Z) :
  news_lookup s (news_cacheKey query sources limit) = None ->
  ctnSearchNewsArticles query sources limit e s = (Ok nd, s1) ->
  0 <= dt <= stdTTL * 1000 ->
  ctnSearchNewsArticles query sources limit e' (set_clock (clock s1 + dt) s1)
  = (Ok nd, set_clock (clock s1 + dt) s1).
Proof.
  intros Hlook Hrun Hdt.
  set (key := news_cacheKey query sources limit) in *.
  destruct (search_miss query sources limit e s Hlook) as (_ & _ & Hfail & Hok).
  fold key in Hfail, Hok.
  unfold ctnSearchNewsArticles, try_catch in Hrun.
  destruct (ctnSearchNewsArticles_try query sources limit e s) as [[a | x] s0] eqn:Etry;
    [|rewrite search_catch_throws in Hrun; discriminate].
  inversion Hrun; subst a s0; clear Hrun.
  destruct (search_fails e s) eqn:Ef.
  { destruct (Hfail eq_refl) as [Ht _]. discriminate. }
  destruct (Hok eq_refl) as (nd' & Heq & _ & Hcache).
  cbn [snd] in *. inversion Heq; subst nd'; clear Heq.
  apply search_hit. fold key.
  unfold news_lookup, nc_get. cbn [set_clock clock news_cache].
  rewrite Hcache, lookup_insert_eq.
  replace (clock s1 + stdTTL * 1000 <? clock s1 + dt) with false
    by (symmetry; apply Z.ltb_ge; lia).
  rewrite andb_false_r. reflexivity.
Qed.

(** C4.  A request whose limit parameter is numerically above 20 is answered
    with status 400 and the error message, in the state in which it arrived:
    no search, no article processing, no cache access. *)
Theorem search_limit_over_20_rejected
  (processArticles : list Article -> M (list ProcessedArticle))
  (req : Request) (e : Env) (s : State) (l : string) :
  req_limit req = Some l ->
  JS.gt (StringToNumber l) (JS.of_Z 20) = true ->
  search_route processArticles req e s
  = (Ok {| status := 400; body := ErrorBody "Limit cannot exceed 20 articles" None |}, s).
Proof.
  intros Hl Hgt.
  unfold search_route, try_catch, limit_value. rewrite Hl.
  cbn [ToNumber]. rewrite Hgt. reflexivity.
Qed.

End SearchClaims.

(** ** The tiers on the sample replies *)

Lemma non_numeric_score_escapes_clamp_witness :
  exists b s',
    @ctnAnalyzePoliticalBias Sample.host "Senate passes the budget." "Budget" "example"
      (Sample.env (Sample.llm_says Sample.text_words) Sample.exa_down 0 0)
      Sample.state0 = (Ok b, s') /\
    analysisMethod b = "CTN AI-powered primary analysis" /\
    biasScore b = JS.NaN /\
    ~ between 0 100 (biasScore b).
Proof.
  apply (@non_numeric_score_escapes_clamp Sample.host
           "Senate passes the budget." "Budget" "example"
           (Sample.env (Sample.llm_says Sample.text_words) Sample.exa_down 0 0)
           Sample.state0 Sample.text_words []
           (JS.Obj [("biasScore", JS.Str "high"); ("confidence", JS.Str "low")])
           (JS.Str "high")); reflexivity.
Defined.




(** Tier 1 does not compare the reported label with the reported score. *)
Example primary_label_not_checked :
  exists b s',
    @ctnAnalyzePoliticalBias Sample.host "Senate passes the budget." "Budget" "example"
      (Sample.env (Sample.llm_says Sample.text_mislabelled) Sample.exa_down 0 0)
      Sample.state0 = (Ok b, s') /\
    biasScore b = JS.of_Z 10 /\ biasLabel b = JS.Str "Conservative" /\
    rubric_label 10 = "Highly Liberal".
Proof.
  eexists _, _. split; [vm_compute; reflexivity|]. repeat split.
Qed.

Lemma sample_reachable : @reachable Sample.host Sample.state0.
Proof. apply reach_start; reflexivity. Defined.





(** ** The search on the sample provider *)

Lemma fallbackArticles_five {host : Host} (now : Z) :
  length (articles (fallbackArticles now)) = 5%nat.
Proof. reflexivity. Qed.

Lemma search_limit_over_20_rejected_witness :
  @search_route Sample.host (fun _ => ret [])
    {| req_query := Some "climate change"; req_limit := Some "21" |}
    (Sample.env Sample.llm_down Sample.exa_answers 0 0) Sample.state0
  = (Ok {| status := 400; body := ErrorBody "Limit cannot exceed 20 articles" None |},
     Sample.state0).
Proof.
  apply (@search_limit_over_20_rejected Sample.host (fun _ => ret [])
           {| req_query := Some "climate change"; req_limit := Some "21" |}
           (Sample.env Sample.llm_down Sample.exa_answers 0 0) Sample.state0 "21");
    reflexivity.
Defined.

Lemma search_results_unique_urls_witness :
  exists nd s',
    @ctnSearchNewsArticles Sample.host "climate change" "" (JS.of_Z 5)
      (Sample.env Sample.llm_down Sample.exa_answers 0 0) Sample.state0 = (Ok nd, s') /\
    map a_url (articles nd) =
      ["https://vox.com/a"; "https://cnn.com/b"; "https://wsj.com/c";
       "https://npr.org/d"; "https://bbc.com/e"] /\
    NoDup (map a_url (articles nd)).
Proof.
  destruct (@ctnSearchNewsArticles Sample.host "climate change" "" (JS.of_Z 5)
              (Sample.env Sample.llm_down Sample.exa_answers 0 0) Sample.state0)
    as [[nd | x] s'] eqn:E.
  - exists nd, s'. split; [reflexivity|]. split.
    + vm_compute in E. inversion E. reflexivity.
    + exact (proj1 (@search_results_unique_urls Sample.host "climate change" ""
                      (JS.of_Z 5) (Sample.env Sample.llm_down Sample.exa_answers 0 0)
                      Sample.state0 s' nd sample_reachable E)).
  - vm_compute in E. discriminate.
Defined.

Lemma search_failure_raises_instead_of_fallback_witness :
  exists s',
    @search_route Sample.host (fun _ => ret [])
      {| req_query := Some "climate change"; req_limit := Some "10" |}
      (Sample.env Sample.llm_down Sample.exa_slow 0 0) Sample.state0
    = (Ok {| status := 500;
             body := ErrorBody "Failed to search news articles" (Some ReferenceError) |},
       s').
Proof.
  destruct (@search_failure_raises_instead_of_fallback Sample.host (fun _ => ret [])
              {| req_query := Some "climate change"; req_limit := Some "10" |}
              (Sample.env Sample.llm_down Sample.exa_slow 0 0) Sample.state0
              eq_refl eq_refl eq_refl) as (s' & _ & H & _).
  exists s'. exact H.
Defined.

Lemma failed_search_is_not_cached_witness :
  fst (@ctnSearchNewsArticles Sample.host "climate change" "" (JS.of_Z 5)
         (Sample.env Sample.llm_down Sample.exa_down 0 0) Sample.state0)
    = Throw ReferenceError /\
  exa_calls
    (snd (@ctnSearchNewsArticles Sample.host "climate change" "" (JS.of_Z 5)
            (Sample.env Sample.llm_down Sample.exa_down 0 0)
            (set_clock
               (clock (snd (@ctnSearchNewsArticles Sample.host "climate change" ""
                              (JS.of_Z 5)
                              (Sample.env Sample.llm_down Sample.exa_down 0 0)
                              Sample.state0)) + 1000)
               (snd (@ctnSearchNewsArticles Sample.host "climate change" "" (JS.of_Z 5)
                       (Sample.env Sample.llm_down Sample.exa_down 0 0)
                       Sample.state0)))))
    = 8%nat.
Proof.
  destruct (@failed_search_is_not_cached Sample.host "climate change" "" (JS.of_Z 5)
              (Sample.env Sample.llm_down Sample.exa_down 0 0) Sample.state0 1000
              eq_refl eq_refl) as (H1 & _ & H3).
  split; [exact H1 | exact H3].
Defined.
